(** * EDIFACT RECADV generator: a shallow embedding and its properties

    The development follows [release2/recadv.py] (the most complete variant of
    the generator), with [release1/recadv.py] and [refactor5/edifact_recadv.py]
    embedded where they differ in a way that matters for a property.

    Conventions of the embedding:
    - a Python [str] is a [string]; every [ascii] stands for the code point of
      the same number, so the strings of the model are the Python strings
      whose code points are below 256;
    - a Python [int] is a [Z];
    - a method of [RecadvGenerator] is a function on the generator record that
      returns the outcome (a value or the exception raised) together with the
      generator as the call leaves it: an exception does not roll back the
      appends made before it;
    - the clock and the UUID source are read from an explicit [Env] value, one
      per call of [generate];
    - the file system is a finite map from paths to file contents, and the
      operating system tells which paths are existing directories;
    - a line item is a dict: where the keys that [generate] reads by
      subscript are known to be there it is a record, and where one may be
      missing the subscript raises [KeyError]. *)

From Stdlib Require Import String Ascii List ZArith Lia Bool.
From Stdlib Require Import DecimalString DecimalZ DecimalPos.
From stdpp Require Import base option list strings gmap.

Local Open Scope Z_scope.

(** ** Python primitives used by the generator *)

Module Py.

(** The ten ASCII decimal digits. *)
Definition is_ascii_digit (c : ascii) : bool :=
  let n := nat_of_ascii c in (Nat.leb 48 n && Nat.leb n 57)%bool.

(** One character of [str.isdigit]: below code point 256 the characters
    with Unicode property Numeric_Type=Decimal or Digit are the ASCII
    digits and the superscripts U+00B2, U+00B3 and U+00B9. *)
Definition isdigit_char (c : ascii) : bool :=
  let n := nat_of_ascii c in
  (is_ascii_digit c || Nat.eqb n 178 || Nat.eqb n 179 || Nat.eqb n 185)%bool.

Fixpoint all_chars (p : ascii -> bool) (s : string) : bool :=
  match s with
  | EmptyString => true
  | String c r => (p c && all_chars p r)%bool
  end.

(** [s.isdigit()]: at least one character, and all of them digits. *)
Definition isdigit (s : string) : bool :=
  match s with
  | EmptyString => false
  | _ => all_chars isdigit_char s
  end.

(** [len(s)] *)
Definition len (s : string) : Z := Z.of_nat (String.length s).

(** [s.replace(old, new)] for a pattern [old] of one character: every
    occurrence is replaced, left to right. *)
Fixpoint replace (old : ascii) (new : string) (s : string) : string :=
  match s with
  | EmptyString => EmptyString
  | String c r =>
      if Ascii.eqb c old then new +:+ replace old new r
      else String c (replace old new r)
  end.

(** [sep.join(l)] *)
Definition join (sep : string) (l : list string) : string :=
  String.concat sep l.

(** [str(n)] for an [int]. *)
Definition str_int (n : Z) : string :=
  NilZero.string_of_int (Z.to_int n).

(** [s[:n]] *)
Definition slice_to (n : nat) (s : string) : string := substring 0 n s.

(** [os.path.join(a, b)] on POSIX paths. *)
Definition path_join (a b : string) : string :=
  match b with
  | String "/" _ => b
  | _ =>
      if (String.eqb a "" || String.eqb (substring (String.length a - 1) 1 a) "/")%bool
      then a +:+ b
      else a +:+ "/" +:+ b
  end.

(** The newline of ["\n".join(...)]. *)
Definition LF : string := String "010" EmptyString.

(** [s.rstrip("/")] *)
Fixpoint rstrip_sep (s : string) : string :=
  match s with
  | EmptyString => EmptyString
  | String c r =>
      match rstrip_sep r with
      | EmptyString => if Ascii.eqb c "/" then EmptyString else String c EmptyString
      | r' => String c r'
      end
  end.

(** [os.path.basename(p)] on POSIX paths: [p[p.rfind("/") + 1:]]. *)
Fixpoint basename (p : string) : string :=
  match p with
  | EmptyString => EmptyString
  | String c r =>
      if existsb (Ascii.eqb "/") (list_ascii_of_string r) then basename r
      else if Ascii.eqb c "/" then r
      else p
  end.

End Py.

(** ** [release1/recadv.py]: the segment encoder without the filter *)

Module Release1.

(** The body of the comprehension in [_segment]:
    [str(e).replace("?", "??").replace("'", "?'").replace(":", "?:")]. *)
Definition escape_element (e : string) : string :=
  Py.replace ":" "?:" (Py.replace "'" "?'" (Py.replace "?" "??" e)).

Definition _segment (tag : string) (elements : list string) : string :=
  let escaped := map escape_element elements in
  tag +:+ "+" +:+ Py.join "+" escaped +:+ "'".

End Release1.

(** ** [release2/recadv.py] *)

(** The same escaping chain as in release1. *)
Definition escape_element (e : string) : string :=
  Py.replace ":" "?:" (Py.replace "'" "?'" (Py.replace "?" "??" e)).

(** [_segment]: elements equal to [""] are left out before the escaping
    (the test [e is not None] holds of every string). *)
Definition _segment (tag : string) (elements : list string) : string :=
  let escaped := map escape_element (filter (fun e => e <> ""%string) elements) in
  tag +:+ "+" +:+ Py.join "+" escaped +:+ "'".

(** *** Exceptions, outcomes and the method monad *)

Inductive exn : Type :=
| ValueError (msg : string)
| TypeError
| OSError
| KeyError (key : string).

Inductive outcome (A : Type) : Type :=
| Return (a : A)
| Raise (e : exn).
Arguments Return {A} a.
Arguments Raise {A} e.

Definition raised {A} (o : outcome A) : Prop :=
  match o with Raise _ => True | Return _ => False end.

Definition raises_ValueError {A} (o : outcome A) : Prop :=
  match o with Raise (ValueError _) => True | _ => False end.

(** The attributes of a [RecadvGenerator] instance. *)
Record RecadvGenerator : Type := {
  message : list string;
  message_ref : string;
  carrier : string;
  delivery_location : string;
  buyer_ean : string;
  supplier_ean : string;
  reference_number : string;
  document_number : string;
  output_dir : string;
  verbose : bool
}.

Definition set_message (m : list string) (g : RecadvGenerator) : RecadvGenerator :=
  {| message := m; message_ref := message_ref g; carrier := carrier g;
     delivery_location := delivery_location g; buyer_ean := buyer_ean g;
     supplier_ean := supplier_ean g; reference_number := reference_number g;
     document_number := document_number g; output_dir := output_dir g;
     verbose := verbose g |}.

Definition set_message_ref (r : string) (g : RecadvGenerator) : RecadvGenerator :=
  {| message := message g; message_ref := r; carrier := carrier g;
     delivery_location := delivery_location g; buyer_ean := buyer_ean g;
     supplier_ean := supplier_ean g; reference_number := reference_number g;
     document_number := document_number g; output_dir := output_dir g;
     verbose := verbose g |}.

(** A method of a class whose instances are of type [S]: it reads and
    updates [self], and returns or raises. *)
Definition method (S A : Type) : Type := S -> outcome A * S.

Definition ret {S A} (a : A) : method S A := fun g => (Return a, g).
Definition throw {S A} (e : exn) : method S A := fun g => (Raise e, g).
Definition bind {S A B} (m : method S A) (k : A -> method S B) : method S B :=
  fun g => match m g with
           | (Return a, g') => k a g'
           | (Raise e, g') => (Raise e, g')
           end.
Definition lift {S A} (o : outcome A) : method S A := fun g => (o, g).
Definition self_get {S A} (f : S -> A) : method S A := fun g => (Return (f g), g).

Declare Scope method_scope.
Delimit Scope method_scope with method.
Notation "x <- m ;; k" := (bind m (fun x => k))
  (at level 100, m at next level, right associativity) : method_scope.
Notation "m ;; k" := (bind m (fun _ => k))
  (at level 100, right associativity) : method_scope.
Local Open Scope method_scope.

(** [self.message.append(seg)] *)
Definition append (seg : string) : method RecadvGenerator unit :=
  fun g => (Return tt, set_message (message g ++ [seg]) g).

(** What one call of [generate] reads from the clock and from [uuid]:
    [strftime_ref] is [datetime.now().strftime("%Y%m%d%H%M")] as evaluated in
    [_generate_message_reference], [uuid4_hex] is [uuid.uuid4().hex], and
    [strftime_dtm] is the second reading of the clock, in [add_header]. *)
Record Env : Type := {
  strftime_ref : string;
  uuid4_hex : string;
  strftime_dtm : string
}.

(** A line item, the dict with keys [line_no], [ean], [qty] and the optional
    [cartons] and [weight]. [qty] is a [str] or an [int]. *)
Inductive quantity : Type :=
| QStr (s : string)
| QInt (n : Z).

Record line_item : Type := {
  line_no : string;
  ean : string;
  qty : quantity;
  cartons : option Z;
  weight : option string
}.

(** [str(qty)] *)
Definition str_qty (q : quantity) : string :=
  match q with
  | QStr s => s
  | QInt n => Py.str_int n
  end.

Definition _generate_message_reference (env : Env) : string :=
  strftime_ref env +:+ Py.slice_to 8 (uuid4_hex env).

Definition _validate_ean (ean : string) : outcome string :=
  if negb (Py.isdigit ean && (Py.len ean =? 13))
  then Raise (ValueError ("Invalid EAN: " +:+ ean +:+ ". Must be 13 digits."))
  else Return ean.

(** [__init__], without the creation of the output directory. *)
Definition __init__ (carrier delivery_location buyer_ean supplier_ean
                     reference_number output_dir document_number : string)
                    (verbose : bool) : outcome RecadvGenerator :=
  match _validate_ean buyer_ean with
  | Raise e => Raise e
  | Return b =>
      match _validate_ean supplier_ean with
      | Raise e => Raise e
      | Return s =>
          Return {| message := []; message_ref := ""; carrier := carrier;
                    delivery_location := delivery_location;
                    buyer_ean := b; supplier_ean := s;
                    reference_number := reference_number;
                    document_number := document_number;
                    output_dir := output_dir; verbose := verbose |}
      end
  end.

Definition add_una_segment : method RecadvGenerator unit :=
  append "UNA:+.? '".

Definition add_header (env : Env) : method RecadvGenerator unit :=
  r <- self_get message_ref ;;
  append (_segment "UNH" [r; "RECADV:D:96A:UN:EAN008"%string]) ;;
  d <- self_get document_number ;;
  append (_segment "BGM" ["351"%string; d; "9"%string]) ;;
  append (_segment "DTM" ["137:" +:+ strftime_dtm env +:+ ":203"]) ;;
  n <- self_get reference_number ;;
  append (_segment "RFF" ["DQ:" +:+ n]).

Definition add_party (qualifier ean : string) : method RecadvGenerator unit :=
  lift (_validate_ean ean) ;;
  append (_segment "NAD" [qualifier; ean +:+ "::9"]).

Definition add_default_parties : method RecadvGenerator unit :=
  b <- self_get buyer_ean ;;
  add_party "BY" b ;;
  s <- self_get supplier_ean ;;
  add_party "SU" s.

Definition add_transport_details : method RecadvGenerator unit :=
  c <- self_get carrier ;;
  append (_segment "TDT" ["20"%string; ""%string; ""%string; "31"%string; ""%string; c]) ;;
  l <- self_get delivery_location ;;
  append (_segment "LOC" ["9"%string; l]).

Definition add_line_item (line_no ean : string) (qty : quantity)
                         (cartons : Z) (weight : string) : method RecadvGenerator unit :=
  lift (_validate_ean ean) ;;
  let qty_str := str_qty qty in
  (if negb (Py.isdigit qty_str)
   then throw (ValueError ("Quantity must be numeric, got: " +:+ qty_str))
   else ret tt) ;;
  append (_segment "LIN" [line_no; ""%string; "EN:" +:+ ean]) ;;
  append (_segment "QTY" ["113:" +:+ qty_str]) ;;
  append (_segment "PAC" [Py.str_int cartons; "CT"%string]) ;;
  append (_segment "MEA" ["AAE"%string; "G"%string; weight]).

Definition add_trailer : method RecadvGenerator unit :=
  m <- self_get message ;;
  let segment_count := Z.of_nat (length m) + 1 in
  r <- self_get message_ref ;;
  append (_segment "UNT" [Py.str_int segment_count; r]).

(** [item.get("cartons", 1)] and [item.get("weight", "KGM:6.5")] *)
Definition get_cartons (item : line_item) : Z := default 1 (cartons item).
Definition get_weight (item : line_item) : string := default "KGM:6.5"%string (weight item).

(** The loop [for item in line_items: self.add_line_item(...)]. *)
Fixpoint add_line_items (line_items : list line_item) : method RecadvGenerator unit :=
  match line_items with
  | [] => ret tt
  | item :: rest =>
      add_line_item (line_no item) (ean item) (qty item) (get_cartons item) (get_weight item) ;;
      add_line_items rest
  end.

(** What [generate] returns: the joined text, or (with [as_list]) the list
    object [self.message] itself, which later calls on the same generator
    keep mutating. *)
Inductive rendered : Type :=
| Joined (text : string)
| MessageList.

(** [generate]; the printing under [verbose] is left out. *)
Definition generate (line_items : list line_item) (as_list : bool) (env : Env)
  : method RecadvGenerator rendered :=
  match line_items with
  | [] => throw (ValueError "At least one line item is required.")
  | _ =>
      (fun g => (Return tt, set_message [] g)) ;;
      (fun g => (Return tt, set_message_ref (_generate_message_reference env) g)) ;;
      add_una_segment ;;
      add_header env ;;
      add_default_parties ;;
      add_transport_details ;;
      add_line_items line_items ;;
      add_trailer ;;
      m <- self_get message ;;
      ret (if as_list then MessageList else Joined (Py.join Py.LF m))
  end.

(** *** The file system and [generate_and_save] *)

(** Paths to file contents; the directories are told by [isdir] below. *)
Abbreviation FS := (gmap string string).

(** Which step of the write fails, if any: the creation of the temporary
    file, [tmp.write] (the file may hold part of the text), the close at the
    end of the [with] block, or [shutil.move]. When [os.rename] fails,
    [shutil.move] falls back on a copy of the file to the destination: a move
    that fails may have written there, and [written] is what it left
    ([None] when the destination was not opened). *)
Inductive fault : Type :=
| NoFault
| CreateFails
| WriteFails (partial : string)
| CloseFails (partial : string)
| MoveFails (written : option string).

(** What [generate_and_save] gets from the operating system: the base name
    that [NamedTemporaryFile] picks, the step that fails, and which paths
    are existing directories ([os.path.isdir]). *)
Record IOEnv : Type := {
  tmp_basename : string;
  io_fault : fault;
  isdir : string -> bool
}.

(** [shutil.move(src, dst)] for a source that is a regular file. When [dst]
    is an existing directory the file goes inside it, under the base name of
    [src], and the move raises if that path exists; otherwise the file is
    renamed onto [dst], replacing a file that is there. [failure] tells
    whether the rename and the copy that stands in for it fail, and what the
    copy left at the destination. *)
Definition shutil_move (isdir : string -> bool) (failure : option (option string))
                       (src dst : string) (fs : FS) : outcome unit * FS :=
  match fs !! src with
  | None => (Raise OSError, fs)
  | Some c =>
      let real_dst :=
        if isdir dst then Py.path_join dst (Py.basename (Py.rstrip_sep src)) else dst in
      if (isdir dst && (bool_decide (is_Some (fs !! real_dst)) || isdir real_dst))%bool
      then (Raise OSError, fs)
      else
        match failure with
        | None =>
            if decide (src = real_dst) then (Return tt, fs)
            else (Return tt, <[real_dst := c]> (delete src fs))
        | Some None => (Raise OSError, fs)
        | Some (Some partial) =>
            if decide (src = real_dst) then (Raise OSError, fs)
            else (Raise OSError, <[real_dst := partial]> fs)
        end
  end.

(** The body of the [try]: the outcome, the value of the variable
    [tmp_file] when the body is left, and the file system. *)
Definition try_body (io : IOEnv) (dir edi_content filepath : string) (fs : FS)
  : outcome unit * option string * FS :=
  match io_fault io with
  | CreateFails => (Raise OSError, None, fs)
  | f =>
      let name := Py.path_join dir (tmp_basename io) in
      let fs1 := <[name := ""%string]> fs in
      match f with
      | WriteFails partial => (Raise OSError, None, <[name := partial]> fs1)
      | CloseFails partial => (Raise OSError, Some name, <[name := partial]> fs1)
      | _ =>
          let fs2 := <[name := edi_content]> fs1 in
          let failure := match f with MoveFails written => Some written | _ => None end in
          let '(o, fs3) := shutil_move (isdir io) failure name filepath fs2 in
          (o, Some name, fs3)
      end
  end.

(** The [finally] clause:
    [if tmp_file and os.path.exists(tmp_file): os.remove(tmp_file)]. *)
Definition finally_clause (tmp_file : option string) (fs : FS) : FS :=
  match tmp_file with
  | None => fs
  | Some p =>
      if decide (p = ""%string) then fs
      else match fs !! p with
           | Some _ => delete p fs
           | None => fs
           end
  end.

Definition generate_and_save (line_items : list line_item) (filename : option string)
                             (env : Env) (io : IOEnv)
                             (g : RecadvGenerator) (fs : FS)
  : outcome string * RecadvGenerator * FS :=
  match generate line_items false env g with
  | (Raise e, g') => (Raise e, g', fs)
  | (Return MessageList, g') =>
      (* [as_list] is [False] here, so [generate] returns the text *)
      (Raise TypeError, g', fs)
  | (Return (Joined edi_content), g') =>
      let fallback := "RECADV_" +:+ message_ref g' +:+ ".edi" in
      let filename :=
        match filename with
        | Some f => if decide (f = ""%string) then fallback else f
        | None => fallback
        end in
      let filepath := Py.path_join (output_dir g') filename in
      let '(o, tmp_file, fs') := try_body io (output_dir g') edi_content filepath fs in
      let fs'' := finally_clause tmp_file fs' in
      match o with
      | Raise e => (Raise e, g', fs'')
      | Return _ => (Return filepath, g', fs'')
      end
  end.

(** ** [refactor5/edifact_recadv.py]: the message reference is an attribute
    set by the constructor *)

Module Refactor5.

Record RecadvGenerator : Type := {
  message : list string;
  message_ref : string;
  carrier : string;
  delivery_location : string;
  buyer_ean : string;
  supplier_ean : string;
  reference_number : string;
  output_dir : string
}.

Definition set_message (m : list string) (g : RecadvGenerator) : RecadvGenerator :=
  {| message := m; message_ref := message_ref g; carrier := carrier g;
     delivery_location := delivery_location g; buyer_ean := buyer_ean g;
     supplier_ean := supplier_ean g; reference_number := reference_number g;
     output_dir := output_dir g |}.

Definition append (seg : string) : method RecadvGenerator unit :=
  fun g => (Return tt, set_message (message g ++ [seg]) g).

(** The clock and UUID readings of the constructor: [uuid4_int] is
    [str(uuid.uuid4().int)]. *)
Record InitEnv : Type := {
  strftime_ref : string;
  uuid4_int : string
}.

Definition _generate_message_reference (env : InitEnv) : string :=
  strftime_ref env +:+ Py.slice_to 4 (uuid4_int env).

Definition _segment := Release1._segment.

Definition __init__ (env : InitEnv)
                    (carrier delivery_location buyer_ean supplier_ean
                     reference_number output_dir : string)
  : outcome RecadvGenerator :=
  let r := _generate_message_reference env in
  match _validate_ean buyer_ean with
  | Raise e => Raise e
  | Return b =>
      match _validate_ean supplier_ean with
      | Raise e => Raise e
      | Return s =>
          Return {| message := []; message_ref := r; carrier := carrier;
                    delivery_location := delivery_location;
                    buyer_ean := b; supplier_ean := s;
                    reference_number := reference_number;
                    output_dir := output_dir |}
      end
  end.

Definition add_una_segment : method RecadvGenerator unit :=
  append "UNA:+.? '".

(** [strftime_dtm] is [datetime.now().strftime('%Y%m%d:%H%M')]. *)
Definition add_header (strftime_dtm : string) : method RecadvGenerator unit :=
  r <- self_get message_ref ;;
  append (_segment "UNH" [r; "RECADV:D:96A:UN:EAN008"%string]) ;;
  append (_segment "BGM" ["351"; "RECADV001"; "9"]%string) ;;
  append (_segment "DTM" ["137:" +:+ strftime_dtm +:+ ":203"]) ;;
  n <- self_get reference_number ;;
  append (_segment "RFF" ["DQ:" +:+ n]).

Definition add_parties : method RecadvGenerator unit :=
  b <- self_get buyer_ean ;;
  append (_segment "NAD" ["BY"%string; b +:+ "::9"]) ;;
  s <- self_get supplier_ean ;;
  append (_segment "NAD" ["SU"%string; s +:+ "::9"]).

Definition add_transport_details : method RecadvGenerator unit :=
  c <- self_get carrier ;;
  append (_segment "TDT" ["20"%string; ""%string; ""%string; "31"%string; ""%string; c]) ;;
  l <- self_get delivery_location ;;
  append (_segment "LOC" ["9"%string; l]).

Definition add_line_item (line_no ean qty : string) : method RecadvGenerator unit :=
  lift (_validate_ean ean) ;;
  append (_segment "LIN" [line_no; ""%string; "EN:" +:+ ean]) ;;
  append (_segment "QTY" ["113:" +:+ qty]) ;;
  append (_segment "PAC" ["1"; "CT"]%string) ;;
  append (_segment "MEA" ["AAE"; "G"; "KGM:6.5"]%string).

Definition add_trailer : method RecadvGenerator unit :=
  m <- self_get message ;;
  let segment_count := Z.of_nat (length m) + 1 in
  r <- self_get message_ref ;;
  append (_segment "UNT" [Py.str_int segment_count; r]).

(** A line item of this variant: [line_no], [ean], [qty]. *)
Fixpoint add_line_items (line_items : list (string * string * string))
  : method RecadvGenerator unit :=
  match line_items with
  | [] => ret tt
  | (line_no, ean, qty) :: rest =>
      add_line_item line_no ean qty ;; add_line_items rest
  end.

Definition generate (line_items : list (string * string * string))
                    (strftime_dtm : string) : method RecadvGenerator string :=
  match line_items with
  | [] => throw (ValueError "At least one line item is required.")
  | _ =>
      (fun g => (Return tt, set_message [] g)) ;;
      add_una_segment ;;
      add_header strftime_dtm ;;
      add_parties ;;
      add_transport_details ;;
      add_line_items line_items ;;
      add_trailer ;;
      m <- self_get message ;;
      ret (Py.join Py.LF m)
  end.

End Refactor5.

(** ** Readers used to state the properties *)

(** Modelled from the spec: the reference inverse [unescape] of the element
    escaping, which the repository does not contain. Reading from left to
    right, a release character followed by one of the four special
    characters stands for that character ([??] for the release character,
    [?+] for the element separator, [?:] for the component separator, and
    the release character before the terminator for the terminator); every
    other character is kept. *)
Fixpoint reference_unescape (s : string) : string :=
  match s with
  | EmptyString => EmptyString
  | String a s' =>
      if Ascii.eqb a "?" then
        match s' with
        | String c r =>
            if (Ascii.eqb c "?" || Ascii.eqb c "'" || Ascii.eqb c "+" || Ascii.eqb c ":")%bool
            then String c (reference_unescape r)
            else String a (reference_unescape s')
        | EmptyString => String a EmptyString
        end
      else String a (reference_unescape s')
  end.

(** The longest prefix of ASCII decimal digits. *)
Fixpoint digits_prefix (s : string) : string :=
  match s with
  | EmptyString => EmptyString
  | String c r => if Py.is_ascii_digit c then String c (digits_prefix r) else EmptyString
  end.

(** The count that a trailer segment carries: the number written in decimal
    digits right after [UNT+]. *)
Definition trailer_count (seg : string) : option Z :=
  match seg with
  | String "U" (String "N" (String "T" (String "+" rest))) =>
      match digits_prefix rest with
      | EmptyString => None
      | ds => option_map Z.of_uint (NilEmpty.uint_of_string ds)
      end
  | _ => None
  end.

(** The tag of a rendered segment: its first three characters. *)
Definition tag_of (seg : string) : string := substring 0 3 seg.

(** The number of occurrences of a character. *)
Fixpoint count_char (c : ascii) (s : string) : nat :=
  match s with
  | EmptyString => O
  | String a r => ((if Ascii.eqb a c then 1 else 0) + count_char c r)%nat
  end.

(** The occurrences of [c] that no release character protects: reading from
    the left, a [?] takes the next character with it. *)
Fixpoint count_unescaped (c : ascii) (s : string) : nat :=
  match s with
  | EmptyString => O
  | String a s' =>
      if Ascii.eqb a "?" then
        match s' with
        | String _ r => count_unescaped c r
        | EmptyString => O
        end
      else ((if Ascii.eqb a c then 1 else 0) + count_unescaped c s')%nat
  end.

(** One character as the escaping chain of [_segment] renders it. *)
Definition escape_char (c : ascii) : string :=
  if Ascii.eqb c "?" then "??"%string
  else if Ascii.eqb c "'" then "?'"%string
  else if Ascii.eqb c ":" then "?:"%string
  else String c EmptyString.

(** ** The checks of the builder as predicates, and the message in closed form *)

(** The test of [_validate_ean]: [ean.isdigit() and len(ean) == 13]. *)
Definition ean_ok (ean : string) : bool :=
  (Py.isdigit ean && (Py.len ean =? 13))%bool.

(** The two tests of [add_line_item]. *)
Definition item_ok (item : line_item) : bool :=
  (ean_ok (ean item) && Py.isdigit (str_qty (qty item)))%bool.

(** The party identifiers pass [_validate_ean], as they do in every
    generator that [__init__] returns. *)
Definition parties_ok (g : RecadvGenerator) : bool :=
  (ean_ok (buyer_ean g) && ean_ok (supplier_ean g))%bool.

(** Thirteen ASCII decimal digits. *)
Definition ascii_ean13 (ean : string) : bool :=
  (Py.all_chars Py.is_ascii_digit ean && Nat.eqb (String.length ean) 13)%bool.

(** The four segments that [add_line_item] appends. *)
Definition item_segments (item : line_item) : list string :=
  [ _segment "LIN" [line_no item; ""%string; "EN:" +:+ ean item];
    _segment "QTY" ["113:" +:+ str_qty (qty item)];
    _segment "PAC" [Py.str_int (get_cartons item); "CT"%string];
    _segment "MEA" ["AAE"%string; "G"%string; get_weight item] ].

(** The nine segments ahead of the line items. *)
Definition leading_segments (env : Env) (g : RecadvGenerator) : list string :=
  [ "UNA:+.? '"%string;
    _segment "UNH" [_generate_message_reference env; "RECADV:D:96A:UN:EAN008"%string];
    _segment "BGM" ["351"%string; document_number g; "9"%string];
    _segment "DTM" ["137:" +:+ strftime_dtm env +:+ ":203"];
    _segment "RFF" ["DQ:" +:+ reference_number g];
    _segment "NAD" ["BY"%string; buyer_ean g +:+ "::9"];
    _segment "NAD" ["SU"%string; supplier_ean g +:+ "::9"];
    _segment "TDT" ["20"%string; ""%string; ""%string; "31"%string; ""%string; carrier g];
    _segment "LOC" ["9"%string; delivery_location g] ].

Definition body_segments (env : Env) (g : RecadvGenerator) (items : list line_item)
  : list string :=
  leading_segments env g ++ flat_map item_segments items.

Definition trailer_segment (env : Env) (g : RecadvGenerator) (items : list line_item)
  : string :=
  _segment "UNT" [Py.str_int (Z.of_nat (length (body_segments env g items)) + 1);
                  _generate_message_reference env].

Definition full_message (env : Env) (g : RecadvGenerator) (items : list line_item)
  : list string :=
  body_segments env g items ++ [trailer_segment env g items].

(** The generator as a successful [generate] leaves it. *)
Definition generated (env : Env) (items : list line_item) (g : RecadvGenerator)
  : RecadvGenerator :=
  set_message (full_message env g items)
              (set_message_ref (_generate_message_reference env) g).

Definition generate_result (as_list : bool) (m : list string) : rendered :=
  if as_list then MessageList else Joined (Py.join Py.LF m).

(** The path of the file that [generate_and_save] is to leave behind, for
    the generator [g'] as [generate] leaves it. *)
Definition target_path (filename : option string) (g' : RecadvGenerator) : string :=
  Py.path_join (output_dir g')
    (match filename with
     | Some f => if decide (f = ""%string) then "RECADV_" +:+ message_ref g' +:+ ".edi" else f
     | None => "RECADV_" +:+ message_ref g' +:+ ".edi"
     end).

(** The path of the temporary file. *)
Definition temporary_path (io : IOEnv) (g : RecadvGenerator) : string :=
  Py.path_join (output_dir g) (tmp_basename io).

(** The text that [generate_and_save] writes. *)
Definition saved_text (env : Env) (g : RecadvGenerator) (items : list line_item) : string :=
  Py.join Py.LF (full_message env g items).


(** ** The inputs of the examples *)

(** The generator that [RecadvGenerator()] builds from the default
    arguments. *)
(** The directories of the examples: the output directory, and one
    directory inside it. *)
Definition example_isdir (p : string) : bool :=
  (String.eqb p "output" || String.eqb p "output/archive")%bool.

Definition default_generator : RecadvGenerator :=
  {| message := []; message_ref := ""; carrier := "CarrierX";
     delivery_location := "DEHAM"; buyer_ean := "5412345000176";
     supplier_ean := "4012345500004"; reference_number := "123456789";
     document_number := "RECADV001"; output_dir := "output"; verbose := false |}.

(** [{"line_no": "1", "ean": "4000862141404", "qty": "12"}] *)
Definition example_item : line_item :=
  {| line_no := "1"; ean := "4000862141404"; qty := QStr "12";
     cartons := None; weight := None |}.

(** A reading of the clock and two UUIDs, version 4, that agree on their
    first eight hexadecimal digits. *)
Definition example_env : Env :=
  {| strftime_ref := "202501011200";
     uuid4_hex := "deadbeef00004000800000000000000a";
     strftime_dtm := "202501011200" |}.

Definition example_env_same_prefix : Env :=
  {| strftime_ref := "202501011200";
     uuid4_hex := "deadbeef11114111911111111111111b";
     strftime_dtm := "202501011200" |}.

Definition example_env_later : Env :=
  {| strftime_ref := "202501011201";
     uuid4_hex := "0123456789ab4cde8f0123456789abcd";
     strftime_dtm := "202501011201" |}.

(** Thirteen times the character U+00B2, SUPERSCRIPT TWO. *)
Definition superscript_ean : string :=
  string_of_list_ascii (repeat "178"%char 13).

Definition superscript_item : line_item :=
  {| line_no := "1"; ean := superscript_ean; qty := QStr "12";
     cartons := None; weight := None |}.

(** A method of the refactor5 generator that leaves [self.message_ref] as
    it finds it, whether it returns or raises. *)
Definition keeps_reference {A} (m : method Refactor5.RecadvGenerator A) : Prop :=
  forall g o g', m g = (o, g') -> Refactor5.message_ref g' = Refactor5.message_ref g.

(** The refactor5 generator built from the default arguments, and the line
    item of the example in its form. *)
Definition refactor5_default (env : Refactor5.InitEnv) : outcome Refactor5.RecadvGenerator :=
  Refactor5.__init__ env "CarrierX" "DEHAM" "5412345000176" "4012345500004"
                     "123456789" "output".


(** A line item whose quantity is negative. *)
Definition negative_quantity_item : line_item :=
  {| line_no := "2"; ean := "4000862141405"; qty := QInt (-5);
     cartons := None; weight := None |}.

(** The attributes that configure a generator. *)
Definition configuration (g : RecadvGenerator)
  : string * string * string * string * string * string * string * bool :=
  (carrier g, delivery_location g, buyer_ean g, supplier_ean g,
   reference_number g, document_number g, output_dir g, verbose g).

(** A method that leaves the configuration as it finds it, whether it
    returns or raises. *)
Definition keeps_configuration {A} (m : method RecadvGenerator A) : Prop :=
  forall g o g', m g = (o, g') -> configuration g' = configuration g.


(** ** [release1/recadv.py]: the generator *)

Module Release1Builder.

(** The attributes of an instance; this release has no [verbose]. *)
Record RecadvGenerator : Type := {
  message : list string;
  message_ref : string;
  carrier : string;
  delivery_location : string;
  buyer_ean : string;
  supplier_ean : string;
  reference_number : string;
  document_number : string;
  output_dir : string
}.

Definition set_message (m : list string) (g : RecadvGenerator) : RecadvGenerator :=
  {| message := m; message_ref := message_ref g; carrier := carrier g;
     delivery_location := delivery_location g; buyer_ean := buyer_ean g;
     supplier_ean := supplier_ean g; reference_number := reference_number g;
     document_number := document_number g; output_dir := output_dir g |}.

Definition set_message_ref (r : string) (g : RecadvGenerator) : RecadvGenerator :=
  {| message := message g; message_ref := r; carrier := carrier g;
     delivery_location := delivery_location g; buyer_ean := buyer_ean g;
     supplier_ean := supplier_ean g; reference_number := reference_number g;
     document_number := document_number g; output_dir := output_dir g |}.

Definition append (seg : string) : method RecadvGenerator unit :=
  fun g => (Return tt, set_message (message g ++ [seg]) g).

(** The readings of one call of [generate]: [uuid4_int] is
    [str(uuid.uuid4().int)]. *)
Record Env : Type := {
  strftime_ref : string;
  uuid4_int : string;
  strftime_dtm : string
}.

Definition _generate_message_reference (env : Env) : string :=
  strftime_ref env +:+ Py.slice_to 4 (uuid4_int env).

Definition _segment := Release1._segment.

(** [__init__], without the creation of the output directory;
    [_validate_ean] is the one of release2, word for word. *)
Definition __init__ (carrier delivery_location buyer_ean supplier_ean
                     reference_number output_dir document_number : string)
  : outcome RecadvGenerator :=
  match _validate_ean buyer_ean with
  | Raise e => Raise e
  | Return b =>
      match _validate_ean supplier_ean with
      | Raise e => Raise e
      | Return s =>
          Return {| message := []; message_ref := ""; carrier := carrier;
                    delivery_location := delivery_location;
                    buyer_ean := b; supplier_ean := s;
                    reference_number := reference_number;
                    document_number := document_number;
                    output_dir := output_dir |}
      end
  end.

Definition add_una_segment : method RecadvGenerator unit :=
  append "UNA:+.? '".

Definition add_header (env : Env) : method RecadvGenerator unit :=
  r <- self_get message_ref ;;
  append (_segment "UNH" [r; "RECADV:D:96A:UN:EAN008"%string]) ;;
  d <- self_get document_number ;;
  append (_segment "BGM" ["351"%string; d; "9"%string]) ;;
  append (_segment "DTM" ["137:" +:+ strftime_dtm env +:+ ":203"]) ;;
  n <- self_get reference_number ;;
  append (_segment "RFF" ["DQ:" +:+ n]).

Definition add_party (qualifier ean : string) : method RecadvGenerator unit :=
  lift (_validate_ean ean) ;;
  append (_segment "NAD" [qualifier; ean +:+ "::9"]).

Definition add_default_parties : method RecadvGenerator unit :=
  b <- self_get buyer_ean ;;
  add_party "BY" b ;;
  s <- self_get supplier_ean ;;
  add_party "SU" s.

Definition add_transport_details : method RecadvGenerator unit :=
  c <- self_get carrier ;;
  append (_segment "TDT" ["20"%string; ""%string; ""%string; "31"%string; ""%string; c]) ;;
  l <- self_get delivery_location ;;
  append (_segment "LOC" ["9"%string; l]).

(** The quantity goes into the segment as it is: this release has no test
    on it. *)
Definition add_line_item (line_no ean : string) (qty : quantity)
                         (cartons : Z) (weight : string) : method RecadvGenerator unit :=
  lift (_validate_ean ean) ;;
  append (_segment "LIN" [line_no; ""%string; "EN:" +:+ ean]) ;;
  append (_segment "QTY" ["113:" +:+ str_qty qty]) ;;
  append (_segment "PAC" [Py.str_int cartons; "CT"%string]) ;;
  append (_segment "MEA" ["AAE"%string; "G"%string; weight]).

Definition add_trailer : method RecadvGenerator unit :=
  m <- self_get message ;;
  let segment_count := Z.of_nat (length m) + 1 in
  r <- self_get message_ref ;;
  append (_segment "UNT" [Py.str_int segment_count; r]).

Fixpoint add_line_items (line_items : list line_item) : method RecadvGenerator unit :=
  match line_items with
  | [] => ret tt
  | item :: rest =>
      add_line_item (line_no item) (ean item) (qty item) (get_cartons item) (get_weight item) ;;
      add_line_items rest
  end.

Definition generate (line_items : list line_item) (env : Env)
  : method RecadvGenerator string :=
  match line_items with
  | [] => throw (ValueError "At least one line item is required.")
  | _ =>
      (fun g => (Return tt, set_message [] g)) ;;
      (fun g => (Return tt, set_message_ref (_generate_message_reference env) g)) ;;
      add_una_segment ;;
      add_header env ;;
      add_default_parties ;;
      add_transport_details ;;
      add_line_items line_items ;;
      add_trailer ;;
      m <- self_get message ;;
      ret (Py.join Py.LF m)
  end.

(** Which step of the write fails, if any: [open], [f.write] (the file may
    hold part of the text), or the close at the end of the [with] block. *)
Inductive write_fault : Type :=
| NoRaise
| OpenRaises
| WriteRaises (partial : string)
| CloseRaises (partial : string).

(** [with open(filepath, "w", encoding="utf-8") as f: f.write(edi_content)]:
    opening for writing creates the file or empties it. *)
Definition write_file (w : write_fault) (filepath edi_content : string) (fs : FS)
  : outcome unit * FS :=
  match w with
  | OpenRaises => (Raise OSError, fs)
  | WriteRaises partial => (Raise OSError, <[filepath := partial]> (<[filepath := ""%string]> fs))
  | CloseRaises partial => (Raise OSError, <[filepath := partial]> (<[filepath := ""%string]> fs))
  | NoRaise => (Return tt, <[filepath := edi_content]> (<[filepath := ""%string]> fs))
  end.

Definition generate_and_save (line_items : list line_item) (filename : option string)
                             (env : Env) (w : write_fault)
                             (g : RecadvGenerator) (fs : FS)
  : outcome string * RecadvGenerator * FS :=
  match generate line_items env g with
  | (Raise e, g') => (Raise e, g', fs)
  | (Return edi_content, g') =>
      let fallback := "RECADV_" +:+ message_ref g' +:+ ".edi" in
      let filename :=
        match filename with
        | Some f => if decide (f = ""%string) then fallback else f
        | None => fallback
        end in
      let filepath := Py.path_join (output_dir g') filename in
      match write_file w filepath edi_content fs with
      | (Raise e, fs') => (Raise e, g', fs')
      | (Return _, fs') => (Return filepath, g', fs')
      end
  end.

(** The segments of one line item, and the message in closed form. *)
Definition item_segments (item : line_item) : list string :=
  [ _segment "LIN" [line_no item; ""%string; "EN:" +:+ ean item];
    _segment "QTY" ["113:" +:+ str_qty (qty item)];
    _segment "PAC" [Py.str_int (get_cartons item); "CT"%string];
    _segment "MEA" ["AAE"%string; "G"%string; get_weight item] ].

Definition leading_segments (env : Env) (g : RecadvGenerator) : list string :=
  [ "UNA:+.? '"%string;
    _segment "UNH" [_generate_message_reference env; "RECADV:D:96A:UN:EAN008"%string];
    _segment "BGM" ["351"%string; document_number g; "9"%string];
    _segment "DTM" ["137:" +:+ strftime_dtm env +:+ ":203"];
    _segment "RFF" ["DQ:" +:+ reference_number g];
    _segment "NAD" ["BY"%string; buyer_ean g +:+ "::9"];
    _segment "NAD" ["SU"%string; supplier_ean g +:+ "::9"];
    _segment "TDT" ["20"%string; ""%string; ""%string; "31"%string; ""%string; carrier g];
    _segment "LOC" ["9"%string; delivery_location g] ].

Definition full_message (env : Env) (g : RecadvGenerator) (items : list line_item)
  : list string :=
  let body := leading_segments env g ++ flat_map item_segments items in
  body ++ [_segment "UNT" [Py.str_int (Z.of_nat (length body) + 1);
                           _generate_message_reference env]].

Definition generated (env : Env) (items : list line_item) (g : RecadvGenerator)
  : RecadvGenerator :=
  set_message (full_message env g items)
              (set_message_ref (_generate_message_reference env) g).

Definition parties_ok (g : RecadvGenerator) : bool :=
  (ean_ok (buyer_ean g) && ean_ok (supplier_ean g))%bool.

(** The path that [generate_and_save] writes to, for the generator [g'] as
    [generate] leaves it: [os.path.join(self.output_dir, filename)], with
    [RECADV_<message_ref>.edi] for a file name that is [None] or empty. *)
Definition target_path (filename : option string) (g' : RecadvGenerator) : string :=
  Py.path_join (output_dir g')
    (match filename with
     | Some f => if decide (f = ""%string) then "RECADV_" +:+ message_ref g' +:+ ".edi" else f
     | None => "RECADV_" +:+ message_ref g' +:+ ".edi"
     end).

Definition example_env : Env :=
  {| strftime_ref := "202501011200";
     uuid4_int := "250334169571669407163800140488498123456";
     strftime_dtm := "202501011200" |}.

Definition default_generator : RecadvGenerator :=
  {| message := []; message_ref := ""; carrier := "CarrierX";
     delivery_location := "DEHAM"; buyer_ean := "5412345000176";
     supplier_ean := "4012345500004"; reference_number := "123456789";
     document_number := "RECADV001"; output_dir := "output" |}.

End Release1Builder.


(** ** [refactor5/edifact_recadv.py]: saving, and the message in closed form *)

(** [generate_and_save] of refactor5: the text is written straight to the
    target path, as in release1. *)
Definition refactor5_generate_and_save
           (line_items : list (string * string * string)) (filename : option string)
           (strftime_dtm : string) (w : Release1Builder.write_fault)
           (g : Refactor5.RecadvGenerator) (fs : FS)
  : outcome string * Refactor5.RecadvGenerator * FS :=
  match Refactor5.generate line_items strftime_dtm g with
  | (Raise e, g') => (Raise e, g', fs)
  | (Return edi_content, g') =>
      let fallback := "RECADV_" +:+ Refactor5.message_ref g' +:+ ".edi" in
      let filename :=
        match filename with
        | Some f => if decide (f = ""%string) then fallback else f
        | None => fallback
        end in
      let filepath := Py.path_join (Refactor5.output_dir g') filename in
      match Release1Builder.write_file w filepath edi_content fs with
      | (Raise e, fs') => (Raise e, g', fs')
      | (Return _, fs') => (Return filepath, g', fs')
      end
  end.

Definition refactor5_item_segments (item : string * string * string) : list string :=
  let '(line_no, ean, qty) := item in
  [ Release1._segment "LIN" [line_no; ""%string; "EN:" +:+ ean];
    Release1._segment "QTY" ["113:" +:+ qty];
    Release1._segment "PAC" ["1"; "CT"]%string;
    Release1._segment "MEA" ["AAE"; "G"; "KGM:6.5"]%string ].

Definition refactor5_leading_segments (strftime_dtm : string) (g : Refactor5.RecadvGenerator)
  : list string :=
  [ "UNA:+.? '"%string;
    Release1._segment "UNH" [Refactor5.message_ref g; "RECADV:D:96A:UN:EAN008"%string];
    Release1._segment "BGM" ["351"; "RECADV001"; "9"]%string;
    Release1._segment "DTM" ["137:" +:+ strftime_dtm +:+ ":203"];
    Release1._segment "RFF" ["DQ:" +:+ Refactor5.reference_number g];
    Release1._segment "NAD" ["BY"%string; Refactor5.buyer_ean g +:+ "::9"];
    Release1._segment "NAD" ["SU"%string; Refactor5.supplier_ean g +:+ "::9"];
    Release1._segment "TDT" ["20"%string; ""%string; ""%string; "31"%string; ""%string;
                             Refactor5.carrier g];
    Release1._segment "LOC" ["9"%string; Refactor5.delivery_location g] ].

Definition refactor5_full_message (strftime_dtm : string) (g : Refactor5.RecadvGenerator)
           (items : list (string * string * string)) : list string :=
  let body := refactor5_leading_segments strftime_dtm g
              ++ flat_map refactor5_item_segments items in
  body ++ [Release1._segment "UNT" [Py.str_int (Z.of_nat (length body) + 1);
                                    Refactor5.message_ref g]].

(** The EAN of a line item of refactor5. *)
Definition refactor5_ean (item : string * string * string) : string :=
  let '(_, ean, _) := item in ean.

(** A refactor5 generator as [__init__] returns it for the default
    arguments. *)
Definition refactor5_example : Refactor5.RecadvGenerator :=
  {| Refactor5.message := []; Refactor5.message_ref := "2025010112002503";
     Refactor5.carrier := "CarrierX"; Refactor5.delivery_location := "DEHAM";
     Refactor5.buyer_ean := "5412345000176"; Refactor5.supplier_ean := "4012345500004";
     Refactor5.reference_number := "123456789"; Refactor5.output_dir := "output" |}.

(** ** [print/recadv_term_print.py] *)

Module TermPrint.

(** [edifact_escape] on a [str]: each of the three delimiters is replaced
    by the release character. *)
Definition edifact_escape (value : string) : string :=
  Py.replace ":" "?" (Py.replace "+" "?" (Py.replace "'" "?" value)).

(** [_segment]: an element is a string or [None]. *)
Definition _segment (tag : string) (elements : list (option string)) : string :=
  let elements_escaped :=
    map (fun e => match e with
                  | Some s => edifact_escape s
                  | None => ""%string
                  end) elements in
  tag +:+ "+" +:+ Py.join "+" elements_escaped +:+ "'".

Record RecadvGenerator : Type := {
  buyer_code : string;
  supplier_code : string;
  carrier : string;
  delivery_location : string;
  reference : string
}.

(** The readings of one call of [generate]: [uuid4_int] is
    [str(uuid.uuid4().int)], [strftime_dtm] is
    [datetime.now().strftime('%Y%m%d:%H%M')]. *)
Record Env : Type := {
  strftime_ref : string;
  uuid4_int : string;
  strftime_dtm : string
}.

Definition _generate_message_reference (env : Env) : string :=
  strftime_ref env +:+ Py.slice_to 4 (uuid4_int env).

(** The methods append to the list they are handed; each is rendered as
    the list after the call. *)
Definition add_una_segment (message : list string) : list string :=
  message ++ ["UNA:+.? '"%string].

Definition add_header (self : RecadvGenerator) (env : Env)
                      (message : list string) (message_ref : string) : list string :=
  let message := message ++ [_segment "UNH" [Some message_ref;
                                             Some "RECADV:D:96A:UN:EAN008"%string]] in
  let message := message ++ [_segment "BGM" [Some "351"; Some "RECADV001"; Some "9"]%string] in
  let message := message ++ [_segment "DTM" [Some ("137:" +:+ strftime_dtm env +:+ ":203")]] in
  message ++ [_segment "RFF" [Some (reference self)]].

Definition add_parties (self : RecadvGenerator) (message : list string) : list string :=
  let message := message ++ [_segment "NAD" [Some "BY"%string; Some (buyer_code self)]] in
  message ++ [_segment "NAD" [Some "SU"%string; Some (supplier_code self)]].

Definition add_transport_details (self : RecadvGenerator) (message : list string)
  : list string :=
  let message :=
    message ++ [_segment "TDT" [Some "20"%string; Some ""%string; Some ""%string;
                                Some "31"%string; Some ""%string; Some (carrier self)]] in
  message ++ [_segment "LOC" [Some "9"%string; Some (delivery_location self)]].

(** [item.get(key, "")] on a line item, a dict from strings to strings. *)
Definition get (item : gmap string string) (key : string) : string :=
  default ""%string (item !! key).

Fixpoint add_line_items (message : list string) (line_items : list (gmap string string))
  : list string :=
  match line_items with
  | [] => message
  | item :: rest =>
      let message :=
        message ++ [_segment "LIN" [Some (get item "line_no"); Some ""%string;
                                    Some ("EN:" +:+ get item "ean")]] in
      let message := message ++ [_segment "QTY" [Some ("113:" +:+ get item "qty")]] in
      let message := message ++ [_segment "PAC" [Some "1"; Some "CT"]%string] in
      let message := message ++ [_segment "MEA" [Some "AAE"; Some "G"; Some "KGM:6.5"]%string] in
      add_line_items message rest
  end.

Definition add_trailer (message : list string) (segment_count : Z) (message_ref : string)
  : list string :=
  message ++ [_segment "UNT" [Some (Py.str_int segment_count); Some message_ref]].

(** The local list [message] of [generate] when it is joined. *)
Definition generate_segments (self : RecadvGenerator) (line_items : list (gmap string string))
                             (env : Env) : list string :=
  let message := [] in
  let message_ref := _generate_message_reference env in
  let message := add_una_segment message in
  let message := add_header self env message message_ref in
  let message := add_parties self message in
  let message := add_transport_details self message in
  let message := add_line_items message line_items in
  let segment_count := Z.of_nat (length message) in
  add_trailer message segment_count message_ref.

Definition generate (self : RecadvGenerator) (line_items : list (gmap string string))
                    (env : Env) : string :=
  Py.join Py.LF (generate_segments self line_items env).

(** One character as [edifact_escape] renders it. *)
Definition escape_char (c : ascii) : ascii :=
  if (Ascii.eqb c "'" || Ascii.eqb c "+" || Ascii.eqb c ":")%bool then "?"%char else c.

End TermPrint.

(** The four segments that the terminal variant appends for a line item. *)
Definition termprint_item_segments (item : gmap string string) : list string :=
  [ TermPrint._segment "LIN" [Some (TermPrint.get item "line_no"); Some ""%string;
                              Some ("EN:" +:+ TermPrint.get item "ean")];
    TermPrint._segment "QTY" [Some ("113:" +:+ TermPrint.get item "qty")];
    TermPrint._segment "PAC" [Some "1"; Some "CT"]%string;
    TermPrint._segment "MEA" [Some "AAE"; Some "G"; Some "KGM:6.5"]%string ].

(** ** [export/recadv_export3-xmledi.py]: the projection to XML *)

Module PyText.

(** One character of [str.isspace]: below code point 256 these are the
    controls 9 to 13 and 28 to 31, the space, U+0085 and U+00A0. *)
Definition isspace_char (c : ascii) : bool :=
  let n := nat_of_ascii c in
  ((Nat.leb 9 n && Nat.leb n 13) || (Nat.leb 28 n && Nat.leb n 31)
   || Nat.eqb n 32 || Nat.eqb n 133 || Nat.eqb n 160)%bool.

(** [s.lstrip()] *)
Fixpoint lstrip (s : string) : string :=
  match s with
  | EmptyString => EmptyString
  | String c r => if isspace_char c then lstrip r else s
  end.

(** [s.rstrip()] *)
Fixpoint rstrip (s : string) : string :=
  match s with
  | EmptyString => EmptyString
  | String c r =>
      match rstrip r with
      | EmptyString => if isspace_char c then EmptyString else String c EmptyString
      | r' => String c r'
      end
  end.

(** [s.strip()] *)
Definition strip (s : string) : string := rstrip (lstrip s).

(** [s.split(sep)] for a separator of one character. *)
Fixpoint split (sep : ascii) (s : string) : list string :=
  match s with
  | EmptyString => [EmptyString]
  | String c r =>
      if Ascii.eqb c sep then EmptyString :: split sep r
      else match split sep r with
           | h :: t => String c h :: t
           | [] => [String c EmptyString]
           end
  end.

End PyText.

Module Export3.

(** The local function [segment] of [generate_recadv_segments]; the
    elements go in as they are. *)
Definition segment (tag : string) (elements : list string) : string :=
  tag +:+ "+" +:+ Py.join "+" elements +:+ "'".

(** The inner loop of [export_to_xml]: a child [Element<i+1>] with the text
    [part] for every [i, part] of [enumerate(parts)], from index [i]. *)
Fixpoint sub_elements (i : Z) (parts : list string) : list (string * string) :=
  match parts with
  | [] => []
  | part :: rest => ("Element" +:+ Py.str_int (i + 1), part) :: sub_elements (i + 1) rest
  end.

(** [export_to_xml], up to the tree it builds: the children of the root
    [RECADV], each with its tag and its own children. Writing the tree to
    the file is left out. *)
Fixpoint export_to_xml (segments : list string) : list (string * list (string * string)) :=
  match segments with
  | [] => []
  | seg :: rest =>
      match PyText.strip seg with
      | EmptyString => export_to_xml rest
      | stripped =>
          match PyText.split "+" stripped with
          | tag :: parts => (tag, sub_elements 0 parts) :: export_to_xml rest
          | [] => export_to_xml rest
          end
      end
  end.

End Export3.

(** ** [refactor_output4/rf4.py] *)

Module Rf4.

(** What a call gives: a value, or the [KeyError] of a subscript on a line
    item, with the key. *)
Inductive result (A : Type) : Type :=
| Returned (a : A)
| KeyError (key : string).
Arguments Returned {A} a.
Arguments KeyError {A} key.

Record RecadvGenerator : Type := {
  message : list string;
  message_ref : string
}.

(** The readings of the constructor: [uuid4_int] is
    [str(uuid.uuid4().int)]. *)
Record InitEnv : Type := {
  strftime_ref : string;
  uuid4_int : string
}.

Definition _generate_message_reference (env : InitEnv) : string :=
  strftime_ref env +:+ Py.slice_to 4 (uuid4_int env).

Definition __init__ (env : InitEnv) : RecadvGenerator :=
  {| message := []; message_ref := _generate_message_reference env |}.

(** [_segment]: the elements are joined as they are. *)
Definition _segment (tag : string) (elements : list string) : string :=
  tag +:+ "+" +:+ Py.join "+" elements +:+ "'".

(** [self.message.append(seg)] *)
Definition append (seg : string) (g : RecadvGenerator) : RecadvGenerator :=
  {| message := message g ++ [seg]; message_ref := message_ref g |}.

Definition add_una_segment (g : RecadvGenerator) : RecadvGenerator :=
  append "UNA:+.? '" g.

(** [strftime_dtm] is [datetime.now().strftime('%Y%m%d:%H%M')]. *)
Definition add_header (strftime_dtm : string) (g : RecadvGenerator) : RecadvGenerator :=
  let g := append (_segment "UNH" [message_ref g; "RECADV:D:96A:UN:EAN008"%string]) g in
  let g := append (_segment "BGM" ["351"; "RECADV001"; "9"]%string) g in
  let g := append (_segment "DTM" ["137:" +:+ strftime_dtm +:+ ":203"]) g in
  append (_segment "RFF" ["DQ:123456789"%string]) g.

Definition add_parties (g : RecadvGenerator) : RecadvGenerator :=
  let g := append (_segment "NAD" ["BY"; "5412345000176::9"]%string) g in
  append (_segment "NAD" ["SU"; "4012345500004::9"]%string) g.

Definition add_transport_details (g : RecadvGenerator) : RecadvGenerator :=
  let g := append (_segment "TDT" ["20"; ""; ""; "31"; ""; "CarrierX"]%string) g in
  append (_segment "LOC" ["9"; "DEHAM"]%string) g.

(** [item[key]] on a line item, a dict from strings to strings. *)
Definition subscript (item : gmap string string) (key : string) : result string :=
  match item !! key with
  | Some v => Returned v
  | None => KeyError key
  end.

(** The loop of [add_line_items]: the subscripts are evaluated in the order
    [line_no], [ean], then, after the [LIN] segment is appended, [qty]. *)
Fixpoint add_line_items (line_items : list (gmap string string)) (g : RecadvGenerator)
  : result unit * RecadvGenerator :=
  match line_items with
  | [] => (Returned tt, g)
  | item :: rest =>
      match subscript item "line_no" with
      | KeyError k => (KeyError k, g)
      | Returned line_no =>
          match subscript item "ean" with
          | KeyError k => (KeyError k, g)
          | Returned ean =>
              let g := append (_segment "LIN" [line_no; ""%string; "EN:" +:+ ean]) g in
              match subscript item "qty" with
              | KeyError k => (KeyError k, g)
              | Returned qty =>
                  let g := append (_segment "QTY" ["113:" +:+ qty]) g in
                  let g := append (_segment "PAC" ["1"; "CT"]%string) g in
                  let g := append (_segment "MEA" ["AAE"; "G"; "KGM:6.5"]%string) g in
                  add_line_items rest g
              end
          end
      end
  end.

Definition add_trailer (g : RecadvGenerator) : RecadvGenerator :=
  let segment_count := Z.of_nat (length (message g)) + 1 in
  append (_segment "UNT" [Py.str_int segment_count; message_ref g]) g.

Definition generate (line_items : list (gmap string string)) (strftime_dtm : string)
                    (g : RecadvGenerator) : result string * RecadvGenerator :=
  let g := add_una_segment g in
  let g := add_header strftime_dtm g in
  let g := add_parties g in
  let g := add_transport_details g in
  match add_line_items line_items g with
  | (KeyError k, g) => (KeyError k, g)
  | (Returned _, g) =>
      let g := add_trailer g in
      (Returned (Py.join Py.LF (message g)), g)
  end.

(** A line item with the three keys that [add_line_items] reads. *)
Definition complete (item : gmap string string) : bool :=
  (bool_decide (is_Some (item !! "line_no"%string))
   && bool_decide (is_Some (item !! "ean"%string))
   && bool_decide (is_Some (item !! "qty"%string)))%bool.

(** The first key, in the order of evaluation, that a line item lacks. *)
Definition first_missing (item : gmap string string) : option string :=
  match item !! "line_no"%string, item !! "ean"%string, item !! "qty"%string with
  | None, _, _ => Some "line_no"%string
  | Some _, None, _ => Some "ean"%string
  | Some _, Some _, None => Some "qty"%string
  | Some _, Some _, Some _ => None
  end.

(** The segments appended for a line item before the loop is left. *)
Definition item_segments (item : gmap string string) : list string :=
  match item !! "line_no"%string, item !! "ean"%string with
  | Some line_no, Some ean =>
      _segment "LIN" [line_no; ""%string; "EN:" +:+ ean]
      :: match item !! "qty"%string with
         | Some qty => [ _segment "QTY" ["113:" +:+ qty];
                         _segment "PAC" ["1"; "CT"]%string;
                         _segment "MEA" ["AAE"; "G"; "KGM:6.5"]%string ]
         | None => []
         end
  | _, _ => []
  end.

(** The nine segments ahead of the line items. *)
Definition leading_segments (strftime_dtm : string) (g : RecadvGenerator) : list string :=
  [ "UNA:+.? '"%string;
    _segment "UNH" [message_ref g; "RECADV:D:96A:UN:EAN008"%string];
    _segment "BGM" ["351"; "RECADV001"; "9"]%string;
    _segment "DTM" ["137:" +:+ strftime_dtm +:+ ":203"];
    _segment "RFF" ["DQ:123456789"%string];
    _segment "NAD" ["BY"; "5412345000176::9"]%string;
    _segment "NAD" ["SU"; "4012345500004::9"]%string;
    _segment "TDT" ["20"; ""; ""; "31"; ""; "CarrierX"]%string;
    _segment "LOC" ["9"; "DEHAM"]%string ].

Definition example_item : gmap string string :=
  {[ "line_no"%string := "1"%string; "ean"%string := "4000862141404"%string;
     "qty"%string := "12"%string ]}.

Definition item_without_qty : gmap string string :=
  {[ "line_no"%string := "2"%string; "ean"%string := "4000862141405"%string ]}.

End Rf4.

(** ** Line items as dictionaries: the subscripts in the loop of [generate] *)

(** A line item as release1's and release2's [generate] receive it: a dict
    in which any of the keys may be missing; the values that are there have
    the types that [add_line_item] declares. *)
Record item_dict : Type := {
  dict_line_no : option string;
  dict_ean : option string;
  dict_qty : option quantity;
  dict_cartons : option Z;
  dict_weight : option string
}.

(** [item[key]]: the value under [key], or [KeyError(key)]. *)
Definition subscript {A} (key : string) (value : option A) : outcome A :=
  match value with
  | Some v => Return v
  | None => Raise (KeyError key)
  end.

(** The dict that has the keys of a [line_item]: [line_no], [ean], [qty],
    and [cartons] and [weight] when the item has them. *)
Definition dict_of (item : line_item) : item_dict :=
  {| dict_line_no := Some (line_no item); dict_ean := Some (ean item);
     dict_qty := Some (qty item); dict_cartons := cartons item;
     dict_weight := weight item |}.

(** The first key, in the order of evaluation, that a line item lacks. *)
Definition first_missing (item : item_dict) : option string :=
  match dict_line_no item, dict_ean item, dict_qty item with
  | None, _, _ => Some "line_no"%string
  | Some _, None, _ => Some "ean"%string
  | Some _, Some _, None => Some "qty"%string
  | Some _, Some _, Some _ => None
  end.

Module Release2Dicts.

(** The loop of release2's [generate]:
    [for item in line_items: self.add_line_item(item["line_no"], item["ean"],
    item["qty"], item.get("cartons", 1), item.get("weight", "KGM:6.5"))].
    The arguments are evaluated left to right, before the call. *)
Fixpoint add_line_items (line_items : list item_dict) : method RecadvGenerator unit :=
  match line_items with
  | [] => ret tt
  | item :: rest =>
      line_no <- lift (subscript "line_no" (dict_line_no item)) ;;
      ean <- lift (subscript "ean" (dict_ean item)) ;;
      qty <- lift (subscript "qty" (dict_qty item)) ;;
      add_line_item line_no ean qty
        (default 1 (dict_cartons item)) (default "KGM:6.5"%string (dict_weight item)) ;;
      add_line_items rest
  end.

Definition generate (line_items : list item_dict) (as_list : bool) (env : Env)
  : method RecadvGenerator rendered :=
  match line_items with
  | [] => throw (ValueError "At least one line item is required.")
  | _ =>
      (fun g => (Return tt, set_message [] g)) ;;
      (fun g => (Return tt, set_message_ref (_generate_message_reference env) g)) ;;
      add_una_segment ;;
      add_header env ;;
      add_default_parties ;;
      add_transport_details ;;
      add_line_items line_items ;;
      add_trailer ;;
      m <- self_get message ;;
      ret (if as_list then MessageList else Joined (Py.join Py.LF m))
  end.

End Release2Dicts.

Module Release1Dicts.

(** The loop of release1's [generate]:
    [for item in line_items: self.add_line_item(item["line_no"], item["ean"],
    item["qty"], item.get("cartons", 1), item.get("weight", "KGM:6.5"))].
    The arguments are evaluated left to right, before the call. *)
Fixpoint add_line_items (line_items : list item_dict)
  : method Release1Builder.RecadvGenerator unit :=
  match line_items with
  | [] => ret tt
  | item :: rest =>
      line_no <- lift (subscript "line_no" (dict_line_no item)) ;;
      ean <- lift (subscript "ean" (dict_ean item)) ;;
      qty <- lift (subscript "qty" (dict_qty item)) ;;
      Release1Builder.add_line_item line_no ean qty
        (default 1 (dict_cartons item)) (default "KGM:6.5"%string (dict_weight item)) ;;
      add_line_items rest
  end.

Definition generate (line_items : list item_dict) (env : Release1Builder.Env)
  : method Release1Builder.RecadvGenerator string :=
  match line_items with
  | [] => throw (ValueError "At least one line item is required.")
  | _ =>
      (fun g => (Return tt, Release1Builder.set_message [] g)) ;;
      (fun g => (Return tt,
                 Release1Builder.set_message_ref
                   (Release1Builder._generate_message_reference env) g)) ;;
      Release1Builder.add_una_segment ;;
      Release1Builder.add_header env ;;
      Release1Builder.add_default_parties ;;
      Release1Builder.add_transport_details ;;
      add_line_items line_items ;;
      Release1Builder.add_trailer ;;
      m <- self_get Release1Builder.message ;;
      ret (Py.join Py.LF m)
  end.


End Release1Dicts.

Module Refactor5Dicts.

(** [item[key]] on a line item of refactor5, a dict from strings to
    strings. *)
Definition subscript (item : gmap string string) (key : string) : outcome string :=
  match item !! key with
  | Some v => Return v
  | None => Raise (KeyError key)
  end.

(** The loop of refactor5's [generate]:
    [for item in line_items: self.add_line_item(item["line_no"], item["ean"],
    item["qty"])]. *)
Fixpoint add_line_items (line_items : list (gmap string string))
  : method Refactor5.RecadvGenerator unit :=
  match line_items with
  | [] => ret tt
  | item :: rest =>
      line_no <- lift (subscript item "line_no") ;;
      ean <- lift (subscript item "ean") ;;
      qty <- lift (subscript item "qty") ;;
      Refactor5.add_line_item line_no ean qty ;;
      add_line_items rest
  end.

Definition generate (line_items : list (gmap string string)) (strftime_dtm : string)
  : method Refactor5.RecadvGenerator string :=
  match line_items with
  | [] => throw (ValueError "At least one line item is required.")
  | _ =>
      (fun g => (Return tt, Refactor5.set_message [] g)) ;;
      Refactor5.add_una_segment ;;
      Refactor5.add_header strftime_dtm ;;
      Refactor5.add_parties ;;
      Refactor5.add_transport_details ;;
      add_line_items line_items ;;
      Refactor5.add_trailer ;;
      m <- self_get Refactor5.message ;;
      ret (Py.join Py.LF m)
  end.

(** The dict with the three keys of a line item. *)
Definition dict_of (item : string * string * string) : gmap string string :=
  let '(line_no, ean, qty) := item in
  {[ "line_no"%string := line_no; "ean"%string := ean; "qty"%string := qty ]}.

(** A line item with the three keys that the loop reads, and what it reads
    from it. *)
Definition complete (item : gmap string string) : bool :=
  (bool_decide (is_Some (item !! "line_no"%string))
   && bool_decide (is_Some (item !! "ean"%string))
   && bool_decide (is_Some (item !! "qty"%string)))%bool.

Definition arguments (item : gmap string string) : string * string * string :=
  (default ""%string (item !! "line_no"%string),
   default ""%string (item !! "ean"%string),
   default ""%string (item !! "qty"%string)).

(** The first key, in the order of evaluation, that a line item lacks. *)
Definition first_missing (item : gmap string string) : option string :=
  match item !! "line_no"%string, item !! "ean"%string, item !! "qty"%string with
  | None, _, _ => Some "line_no"%string
  | Some _, None, _ => Some "ean"%string
  | Some _, Some _, None => Some "qty"%string
  | Some _, Some _, Some _ => None
  end.

(** [{"line_no": "2", "ean": "4000862141405"}] *)
Definition item_without_qty : gmap string string :=
  {[ "line_no"%string := "2"%string; "ean"%string := "4000862141405"%string ]}.

End Refactor5Dicts.

(** * Properties *)

(** ** The primitives and the encoder on small inputs *)

Example isdigit_ascii : Py.isdigit "4000862141404" = true.
Proof. reflexivity. Qed.

Example isdigit_empty : Py.isdigit "" = false.
Proof. reflexivity. Qed.

Example isdigit_sign : Py.isdigit "-5" = false /\ Py.isdigit "+5" = false.
Proof. split; reflexivity. Qed.

Example isdigit_superscript : Py.isdigit (String "178" EmptyString) = true.
Proof. reflexivity. Qed.

Example isdigit_fraction : Py.isdigit (String "188" EmptyString) = false.
Proof. reflexivity. Qed.

Example str_int_values :
  Py.str_int 0 = "0"%string /\ Py.str_int 14 = "14"%string /\ Py.str_int (-5) = "-5"%string.
Proof. repeat split. Qed.

Example replace_all : Py.replace "?" "??" "a?b??" = "a??b????"%string.
Proof. reflexivity. Qed.

Example path_join_values :
  Py.path_join "output" "x.edi" = "output/x.edi"%string
  /\ Py.path_join "output/" "x.edi" = "output/x.edi"%string
  /\ Py.path_join "" "x.edi" = "x.edi"%string
  /\ Py.path_join "output" "/tmp/x.edi" = "/tmp/x.edi"%string.
Proof. repeat split. Qed.

Example escape_all_four :
  escape_element "a?b'c+d:e" = "a??b?'c+d?:e"%string.
Proof. reflexivity. Qed.

Example unescape_all_four :
  reference_unescape "a??b?'c?+d?:e" = "a?b'c+d:e"%string.
Proof. reflexivity. Qed.

Example segment_bgm :
  _segment "BGM" ["351"; "RECADV001"; "9"]%string = "BGM+351+RECADV001+9'"%string.
Proof. reflexivity. Qed.

Example segment_tdt :
  _segment "TDT" ["20"; ""; ""; "31"; ""; "CarrierX"]%string = "TDT+20+31+CarrierX'"%string
  /\ Release1._segment "TDT" ["20"; ""; ""; "31"; ""; "CarrierX"]%string
     = "TDT+20+++31++CarrierX'"%string.
Proof. split; reflexivity. Qed.

Example segment_no_element :
  _segment "UNS" [] = "UNS+'"%string /\ Release1._segment "UNS" [] = "UNS+'"%string.
Proof. split; reflexivity. Qed.

Example trailer_count_values :
  trailer_count "UNT+14+202501011200deadbeef'" = Some 14
  /\ trailer_count "UNT+14'" = Some 14
  /\ trailer_count "UNT++x'" = None
  /\ trailer_count "UNH+14'" = None.
Proof. repeat split. Qed.

(** ** Strings *)

#[local] Arguments String.append !_ _ / : simpl nomatch.

Lemma append_assoc (a b c : string) : (a +:+ b) +:+ c = a +:+ (b +:+ c).
Proof. induction a as [|x a IH]; simpl; [reflexivity | now rewrite IH]. Qed.

(** ** The element escaping *)

(** The three replacements in a row act on each character on its own: the
    release character that the second and the third replacement put in is
    never read again by a later one. *)
Lemma escape_element_cons (c : ascii) (r : string) :
  escape_element (String c r) = escape_char c +:+ escape_element r.
Proof.
  unfold escape_element, escape_char. simpl.
  destruct (Ascii.eqb_spec c "?") as [->|Hq]; [reflexivity |].
  simpl. destruct (Ascii.eqb_spec c "'") as [->|Ha]; [reflexivity |].
  simpl. destruct (Ascii.eqb_spec c ":") as [->|Hc]; reflexivity.
Qed.


Lemma reference_unescape_escape_char (c : ascii) (t : string) :
  reference_unescape (escape_char c +:+ t) = String c (reference_unescape t).
Proof.
  unfold escape_char.
  destruct (Ascii.eqb_spec c "?") as [->|Hq]; [reflexivity |].
  destruct (Ascii.eqb_spec c "'") as [->|Ha]; [reflexivity |].
  destruct (Ascii.eqb_spec c ":") as [->|Hc]; [reflexivity |].
  simpl. apply Ascii.eqb_neq in Hq. now rewrite Hq.
Qed.

Lemma count_char_cons (c a : ascii) (r : string) :
  count_char c (String a r) = ((if Ascii.eqb a c then 1 else 0) + count_char c r)%nat.
Proof. reflexivity. Qed.

Lemma count_unescaped_release (c x : ascii) (r : string) :
  count_unescaped c (String "?" (String x r)) = count_unescaped c r.
Proof. reflexivity. Qed.

Lemma count_unescaped_plain (c a : ascii) (s : string) :
  a <> "?"%char ->
  count_unescaped c (String a s)
  = ((if Ascii.eqb a c then 1 else 0) + count_unescaped c s)%nat.
Proof.
  intros Ha. apply Ascii.eqb_neq in Ha.
  change (count_unescaped c (String a s))
    with (if Ascii.eqb a "?"
          then match s with String _ r => count_unescaped c r | EmptyString => O end
          else ((if Ascii.eqb a c then 1 else 0) + count_unescaped c s)%nat).
  now rewrite Ha.
Qed.

Lemma eqb_other (a c : ascii) : c <> a -> Ascii.eqb a c = false.
Proof. intros H. apply Ascii.eqb_neq. congruence. Qed.

(** Reading an escaped element and then the rest: the escaped text is read
    as a whole, and what it holds of [c] unprotected is what the element
    held of it, unless [c] is one of the three characters escaped. *)
Lemma count_unescaped_escape (c : ascii) (e t : string) :
  c <> "?"%char -> c <> "'"%char -> c <> ":"%char ->
  count_unescaped c (escape_element e +:+ t)
  = (count_char c e + count_unescaped c t)%nat.
Proof.
  intros Hq Ha Hc. induction e as [|x e IH]; [reflexivity |].
  rewrite escape_element_cons, append_assoc, count_char_cons. unfold escape_char.
  destruct (Ascii.eqb_spec x "?") as [->|Hxq].
  { change ("??" +:+ (escape_element e +:+ t))
      with (String "?" (String "?" (escape_element e +:+ t))).
    now rewrite count_unescaped_release, IH, (eqb_other _ _ Hq). }
  destruct (Ascii.eqb_spec x "'") as [->|Hxa].
  { change ("?'" +:+ (escape_element e +:+ t))
      with (String "?" (String "'" (escape_element e +:+ t))).
    now rewrite count_unescaped_release, IH, (eqb_other _ _ Ha). }
  destruct (Ascii.eqb_spec x ":") as [->|Hxc].
  { change ("?:" +:+ (escape_element e +:+ t))
      with (String "?" (String ":" (escape_element e +:+ t))).
    now rewrite count_unescaped_release, IH, (eqb_other _ _ Hc). }
  change (String x "" +:+ (escape_element e +:+ t))
    with (String x (escape_element e +:+ t)).
  rewrite (count_unescaped_plain _ _ _ Hxq), IH. lia.
Qed.

(** The terminator and the component separator never stand unprotected in
    an escaped element. *)
Lemma escaped_protects (c : ascii) (e t : string) :
  c = "'"%char \/ c = ":"%char ->
  count_unescaped c (escape_element e +:+ t) = count_unescaped c t.
Proof.
  intros Hc. induction e as [|x e IH]; [reflexivity |].
  rewrite escape_element_cons, append_assoc. unfold escape_char.
  destruct (Ascii.eqb_spec x "?") as [->|Hxq]; [exact IH |].
  destruct (Ascii.eqb_spec x "'") as [->|Hxa]; [exact IH |].
  destruct (Ascii.eqb_spec x ":") as [->|Hxc]; [exact IH |].
  change (String x "" +:+ (escape_element e +:+ t))
    with (String x (escape_element e +:+ t)).
  rewrite (count_unescaped_plain _ _ _ Hxq), IH.
  destruct Hc as [-> | ->].
  - apply Ascii.eqb_neq in Hxa. now rewrite Hxa.
  - apply Ascii.eqb_neq in Hxc. now rewrite Hxc.
Qed.

(** C7: escaping an element and then reading it with the reference inverse
    gives the element back, whatever characters it holds. *)
Theorem escape_unescape_roundtrip (s : string) :
  reference_unescape (escape_element s) = s.
Proof.
  induction s as [|c r IH]; [reflexivity |].
  rewrite escape_element_cons, reference_unescape_escape_char.
  now rewrite IH.
Qed.

(** C2: the escaping chain has no replacement for the element separator.
    An element that holds a [+] is rendered with that [+] unprotected, by
    both releases, so the segment reads as one with an element more. *)
Theorem segment_leaves_plus_unescaped :
  escape_element "a+b" = "a+b"%string
  /\ count_unescaped "+" (escape_element "a+b") = 1%nat
  /\ _segment "FTX" ["a+b"%string] = "FTX+a+b'"%string
  /\ Release1._segment "FTX" ["a+b"%string] = "FTX+a+b'"%string
  /\ _segment "FTX" ["a+b"%string] = _segment "FTX" ["a"; "b"]%string.
Proof. repeat split. Qed.

(** ** The segment encoder *)

Lemma count_unescaped_plain_prefix (c : ascii) (p t : string) :
  count_char "?" p = 0%nat ->
  count_unescaped c (p +:+ t) = (count_char c p + count_unescaped c t)%nat.
Proof.
  induction p as [|a p IH]; intros Hp; [reflexivity |].
  rewrite count_char_cons in Hp.
  destruct (Ascii.eqb_spec a "?") as [->|Ha]; [discriminate |].
  change (String a p +:+ t) with (String a (p +:+ t)).
  rewrite (count_unescaped_plain _ _ _ Ha), count_char_cons, IH by exact Hp. lia.
Qed.

Lemma filter_nonempty_id (l : list string) :
  (forall e, In e l -> e <> ""%string) ->
  filter (fun e : string => e <> ""%string) l = l.
Proof.
  induction l as [|x l IH]; intros H; [reflexivity |].
  rewrite filter_cons. destruct (decide (x <> ""%string)) as [_|Hx].
  - f_equal. apply IH. intros e He. apply H. now right.
  - exfalso. apply Hx, H. now left.
Qed.

Lemma filter_nonempty_repeat (k : nat) :
  filter (fun e : string => e <> ""%string) (repeat ""%string k) = [].
Proof.
  induction k as [|k IH]; [reflexivity |].
  simpl repeat. rewrite filter_cons. destruct (decide (""%string <> ""%string)); [congruence | exact IH].
Qed.

(** The [+] delimiters of a joined list of escaped elements, none of which
    holds a [+]: one between every two neighbours. *)
Lemma count_plus_join (l : list string) (t : string) :
  l <> [] ->
  (forall e, In e l -> count_char "+" e = 0%nat) ->
  count_unescaped "+" (Py.join "+" (map escape_element l) +:+ t)
  = (length l - 1 + count_unescaped "+" t)%nat.
Proof.
  unfold Py.join.
  induction l as [|x l IH]; intros Hne Hl; [congruence |].
  destruct l as [|y l].
  - simpl map. simpl String.concat.
    rewrite count_unescaped_escape by discriminate.
    rewrite (Hl x) by now left. reflexivity.
  - change (String.concat "+" (map escape_element (x :: y :: l)))
      with (escape_element x +:+ "+" +:+ String.concat "+" (map escape_element (y :: l))).
    rewrite !append_assoc, count_unescaped_escape by discriminate.
    rewrite (Hl x) by now left.
    change ("+" +:+ String.concat "+" (map escape_element (y :: l)) +:+ t)
      with (String "+" (String.concat "+" (map escape_element (y :: l)) +:+ t)).
    rewrite count_unescaped_plain by discriminate.
    rewrite IH; [simpl; lia | discriminate | intros e He; apply Hl; now right].
Qed.

Lemma release1_segment_positions (tag : string) (elements : list string) :
  count_char "?" tag = 0%nat -> count_char "+" tag = 0%nat ->
  elements <> [] ->
  (forall e, In e elements -> count_char "+" e = 0%nat) ->
  count_unescaped "+" (Release1._segment tag elements) = length elements.
Proof.
  intros Hq Hp Hne Hl. unfold Release1._segment.
  rewrite count_unescaped_plain_prefix, Hp by exact Hq.
  change ("+" +:+ Py.join "+" (map Release1.escape_element elements) +:+ "'")
    with (String "+" (Py.join "+" (map escape_element elements) +:+ "'")).
  rewrite count_unescaped_plain by discriminate.
  rewrite count_plus_join by assumption.
  destruct elements; [congruence | simpl; lia].
Qed.

(** The terminator and the component separator in a joined list of escaped
    elements: none stands unprotected. *)
Lemma join_escaped_protects (c : ascii) (l : list string) (t : string) :
  c = "'"%char \/ c = ":"%char ->
  count_unescaped c (Py.join "+" (map escape_element l) +:+ t) = count_unescaped c t.
Proof.
  intros Hc. unfold Py.join.
  assert (Hplus : Ascii.eqb "+" c = false) by (destruct Hc as [-> | ->]; reflexivity).
  induction l as [|x l IH]; [reflexivity |].
  destruct l as [|y l].
  - cbn [map String.concat]. now apply escaped_protects.
  - change (String.concat "+" (map escape_element (x :: y :: l)))
      with (escape_element x +:+ "+" +:+ String.concat "+" (map escape_element (y :: l))).
    rewrite !append_assoc, escaped_protects by exact Hc.
    change ("+" +:+ String.concat "+" (map escape_element (y :: l)) +:+ t)
      with (String "+" (String.concat "+" (map escape_element (y :: l)) +:+ t)).
    rewrite count_unescaped_plain by discriminate.
    now rewrite Hplus, IH.
Qed.

(** What holds of the rendered segment in both releases: it ends with the
    terminator, which is the only unprotected one, and no component
    separator stands unprotected in it. The tag is one without [?], ['] and
    [:]. *)
Lemma segment_terminator_and_colon (tag : string) (elements : list string) :
  count_char "?" tag = 0%nat -> count_char "'" tag = 0%nat -> count_char ":" tag = 0%nat ->
  (exists body, _segment tag elements = body +:+ "'")
  /\ count_unescaped "'" (_segment tag elements) = 1%nat
  /\ count_unescaped ":" (_segment tag elements) = 0%nat
  /\ count_unescaped "'" (Release1._segment tag elements) = 1%nat
  /\ count_unescaped ":" (Release1._segment tag elements) = 0%nat.
Proof.
  intros Hq Ha Hc.
  assert (Hgen : forall l,
            count_unescaped "'" (tag +:+ "+" +:+ Py.join "+" (map escape_element l) +:+ "'") = 1%nat
            /\ count_unescaped ":" (tag +:+ "+" +:+ Py.join "+" (map escape_element l) +:+ "'") = 0%nat).
  { intros l. split.
    - rewrite count_unescaped_plain_prefix, Ha by exact Hq.
      change ("+" +:+ Py.join "+" (map escape_element l) +:+ "'")
        with (String "+" (Py.join "+" (map escape_element l) +:+ "'")).
      rewrite count_unescaped_plain by discriminate.
      now rewrite join_escaped_protects by auto.
    - rewrite count_unescaped_plain_prefix, Hc by exact Hq.
      change ("+" +:+ Py.join "+" (map escape_element l) +:+ "'")
        with (String "+" (Py.join "+" (map escape_element l) +:+ "'")).
      rewrite count_unescaped_plain by discriminate.
      now rewrite join_escaped_protects by auto. }
  split.
  { unfold _segment. eexists. rewrite <- !append_assoc. reflexivity. }
  split; [apply Hgen |]. split; [apply Hgen |].
  split; apply (Hgen elements).
Qed.

(** Where the encoders keep the positions: release1 keeps one for every
    element passed; release2 does so when no element passed is empty, and
    trims the empty elements at the end. Positions are counted as a reader
    of the segment finds them, by the unprotected [+] delimiters, for a tag
    free of [?] and [+], a list with at least one element, and elements
    that hold no [+] themselves. *)
Theorem segment_positions (tag : string) (elements : list string) :
  count_char "?" tag = 0%nat -> count_char "+" tag = 0%nat ->
  elements <> [] ->
  (forall e, In e elements -> count_char "+" e = 0%nat) ->
  Release1._segment tag elements
    = tag +:+ "+" +:+ Py.join "+" (map escape_element elements) +:+ "'"
  /\ count_unescaped "+" (Release1._segment tag elements) = length elements
  /\ ((forall e, In e elements -> e <> ""%string) ->
      _segment tag elements = Release1._segment tag elements
      /\ count_unescaped "+" (_segment tag elements) = length elements)
  /\ (forall k, _segment tag (elements ++ repeat ""%string k) = _segment tag elements).
Proof.
  intros Hq Hp Hne Hl.
  assert (Hsame : (forall e, In e elements -> e <> ""%string) ->
                  _segment tag elements = Release1._segment tag elements).
  { intros H. unfold _segment, Release1._segment. now rewrite filter_nonempty_id. }
  split; [reflexivity |].
  split; [now apply release1_segment_positions |].
  split.
  - intros H. split; [now apply Hsame |].
    rewrite Hsame by exact H. now apply release1_segment_positions.
  - intros k. unfold _segment.
    now rewrite filter_app, filter_nonempty_repeat, app_nil_r.
Qed.

Lemma segment_positions_witness :
  count_unescaped "+" (Release1._segment "PAC" ["1"; "CT"]%string) = 2%nat
  /\ _segment "PAC" ["1"; "CT"]%string = "PAC+1+CT'"%string
  /\ count_unescaped "+" (_segment "PAC" ["1"; "CT"]%string) = 2%nat
  /\ _segment "PAC" (["1"; "CT"]%string ++ repeat ""%string 2)
     = _segment "PAC" ["1"; "CT"]%string.
Proof.
  assert (Hplus : forall e, In e ["1"; "CT"]%string -> count_char "+" e = 0%nat)
    by (intros e [<- | [<- | []]]; reflexivity).
  assert (Hfull : forall e, In e ["1"; "CT"]%string -> e <> ""%string)
    by (intros e [<- | [<- | []]]; discriminate).
  destruct (segment_positions "PAC" ["1"; "CT"]%string eq_refl eq_refl
              ltac:(discriminate) Hplus) as (_ & H1 & H2 & H3).
  destruct (H2 Hfull) as [_ H2'].
  exact (conj H1 (conj eq_refl (conj H2' (H3 2%nat)))).
Defined.

(** C6: release2's encoder drops an empty element in the middle of the
    list. The empty second element that [add_line_item] passes for the [LIN]
    segment is left out, and the segment has two element positions for the
    three elements passed; release1's encoder, on the same call, keeps the
    position. *)
Lemma segment_drops_empty_element :
  _segment "LIN" ["1"; ""; "EN:4000862141404"]%string = "LIN+1+EN?:4000862141404'"%string
  /\ count_unescaped "+" (_segment "LIN" ["1"; ""; "EN:4000862141404"]%string)
     <> length ["1"; ""; "EN:4000862141404"]%string
  /\ Release1._segment "LIN" ["1"; ""; "EN:4000862141404"]%string
     = "LIN+1++EN?:4000862141404'"%string
  /\ count_unescaped "+" (Release1._segment "LIN" ["1"; ""; "EN:4000862141404"]%string)
     = length ["1"; ""; "EN:4000862141404"]%string.
Proof.
  split; [reflexivity |]. split; [vm_compute; discriminate |]. split; reflexivity.
Qed.

(** ** The builder *)

Lemma message_set_message (m : list string) (g : RecadvGenerator) :
  message (set_message m g) = m.
Proof. reflexivity. Qed.

Lemma set_message_twice (m m' : list string) (g : RecadvGenerator) :
  set_message m (set_message m' g) = set_message m g.
Proof. reflexivity. Qed.

Lemma bind_return {S A B} (m : method S A) (k : A -> method S B) (g g' : S) (a : A) :
  m g = (Return a, g') -> bind m k g = k a g'.
Proof. intros H. unfold bind. now rewrite H. Qed.

Lemma bind_raise {S A B} (m : method S A) (k : A -> method S B) (g g' : S) (e : exn) :
  m g = (Raise e, g') -> bind m k g = (Raise e, g').
Proof. intros H. unfold bind. now rewrite H. Qed.

Lemma _validate_ean_ok (e : string) :
  ean_ok e = true -> _validate_ean e = Return e.
Proof. unfold _validate_ean, ean_ok. now intros ->. Qed.

Lemma _validate_ean_bad (e : string) :
  ean_ok e = false ->
  _validate_ean e = Raise (ValueError ("Invalid EAN: " +:+ e +:+ ". Must be 13 digits.")).
Proof. unfold _validate_ean, ean_ok. now intros ->. Qed.

Lemma init_parties_ok (c d b s r o doc : string) (v : bool) (g : RecadvGenerator) :
  __init__ c d b s r o doc v = Return g -> parties_ok g = true /\ message g = [].
Proof.
  unfold __init__, parties_ok.
  destruct (ean_ok b) eqn:Hb; [rewrite (_validate_ean_ok _ Hb) | now rewrite (_validate_ean_bad _ Hb)].
  destruct (ean_ok s) eqn:Hs; [rewrite (_validate_ean_ok _ Hs) | now rewrite (_validate_ean_bad _ Hs)].
  intros [= <-]. simpl. now rewrite Hb, Hs.
Qed.

Lemma add_header_run (env : Env) (g : RecadvGenerator) :
  add_header env g
  = (Return tt,
     set_message (message g ++
       [ _segment "UNH" [message_ref g; "RECADV:D:96A:UN:EAN008"%string];
         _segment "BGM" ["351"%string; document_number g; "9"%string];
         _segment "DTM" ["137:" +:+ strftime_dtm env +:+ ":203"];
         _segment "RFF" ["DQ:" +:+ reference_number g] ]) g).
Proof.
  unfold add_header, bind, self_get, append. cbn -[_segment].
  now rewrite <- !app_assoc.
Qed.

Lemma add_party_ok (q e : string) (g : RecadvGenerator) :
  ean_ok e = true ->
  add_party q e g = (Return tt, set_message (message g ++ [_segment "NAD" [q; e +:+ "::9"]]) g).
Proof.
  intros H. unfold add_party, bind, lift, append. now rewrite (_validate_ean_ok _ H).
Qed.

Lemma add_party_bad (q e : string) (g : RecadvGenerator) :
  ean_ok e = false ->
  add_party q e g
  = (Raise (ValueError ("Invalid EAN: " +:+ e +:+ ". Must be 13 digits.")), g).
Proof.
  intros H. unfold add_party, bind, lift. now rewrite (_validate_ean_bad _ H).
Qed.

Lemma add_default_parties_run (g : RecadvGenerator) :
  parties_ok g = true ->
  add_default_parties g
  = (Return tt,
     set_message (message g ++
       [ _segment "NAD" ["BY"%string; buyer_ean g +:+ "::9"];
         _segment "NAD" ["SU"%string; supplier_ean g +:+ "::9"] ]) g).
Proof.
  unfold parties_ok. intros [Hb Hs]%andb_true_iff.
  unfold add_default_parties, bind, self_get.
  rewrite (add_party_ok _ _ _ Hb).
  change (supplier_ean (set_message _ g)) with (supplier_ean g).
  rewrite (add_party_ok _ _ _ Hs). cbn -[_segment].
  now rewrite <- !app_assoc.
Qed.

Lemma add_transport_details_run (g : RecadvGenerator) :
  add_transport_details g
  = (Return tt,
     set_message (message g ++
       [ _segment "TDT" ["20"%string; ""%string; ""%string; "31"%string; ""%string; carrier g];
         _segment "LOC" ["9"%string; delivery_location g] ]) g).
Proof.
  unfold add_transport_details, bind, self_get, append. cbn -[_segment].
  now rewrite <- !app_assoc.
Qed.

Lemma add_line_item_ok (item : line_item) (g : RecadvGenerator) :
  item_ok item = true ->
  add_line_item (line_no item) (ean item) (qty item) (get_cartons item) (get_weight item) g
  = (Return tt, set_message (message g ++ item_segments item) g).
Proof.
  unfold item_ok. intros [He Hq]%andb_true_iff.
  unfold add_line_item, bind, lift, ret, throw, append.
  rewrite (_validate_ean_ok _ He), Hq. cbn -[_segment str_qty Py.str_int].
  unfold item_segments. now rewrite <- !app_assoc.
Qed.

(** An item that fails a test: [ValueError], and nothing is appended. *)
Lemma add_line_item_bad (l e : string) (q : quantity) (c : Z) (w : string)
      (g : RecadvGenerator) :
  (ean_ok e && Py.isdigit (str_qty q))%bool = false ->
  exists msg, add_line_item l e q c w g = (Raise (ValueError msg), g).
Proof.
  intros H. unfold add_line_item, bind, lift, ret, throw.
  destruct (ean_ok e) eqn:He.
  - rewrite (_validate_ean_ok _ He). simpl in H. rewrite H. simpl. eauto.
  - rewrite (_validate_ean_bad _ He). eauto.
Qed.

Lemma add_line_items_ok (items : list line_item) (g : RecadvGenerator) :
  forallb item_ok items = true ->
  add_line_items items g
  = (Return tt, set_message (message g ++ flat_map item_segments items) g).
Proof.
  revert g. induction items as [|item items IH]; intros g H.
  - simpl. unfold ret. rewrite app_nil_r. now destruct g.
  - simpl in H. apply andb_true_iff in H as [Hi Hr].
    cbn [add_line_items]. rewrite (bind_return _ _ _ _ _ (add_line_item_ok _ _ Hi)).
    rewrite IH by exact Hr. rewrite message_set_message, set_message_twice.
    cbn [flat_map]. now rewrite <- app_assoc.
Qed.

Lemma add_line_items_bad (items : list line_item) (g : RecadvGenerator) :
  forallb item_ok items = false ->
  exists msg g', add_line_items items g = (Raise (ValueError msg), g').
Proof.
  revert g. induction items as [|item items IH]; intros g H; [discriminate |].
  simpl in H. cbn [add_line_items].
  destruct (item_ok item) eqn:Hi.
  - rewrite (bind_return _ _ _ _ _ (add_line_item_ok _ _ Hi)). apply IH. exact H.
  - destruct (add_line_item_bad (line_no item) (ean item) (qty item)
                (get_cartons item) (get_weight item) g Hi) as [msg Hm].
    rewrite (bind_raise _ _ _ _ _ Hm). eauto.
Qed.

Lemma add_trailer_run (g : RecadvGenerator) :
  add_trailer g
  = (Return tt,
     set_message (message g ++
       [ _segment "UNT" [Py.str_int (Z.of_nat (length (message g)) + 1); message_ref g] ]) g).
Proof. reflexivity. Qed.

(** [generate] on line items that pass the tests. *)
Lemma generate_ok (items : list line_item) (as_list : bool) (env : Env)
      (g : RecadvGenerator) :
  parties_ok g = true -> items <> [] -> forallb item_ok items = true ->
  generate items as_list env g
  = (Return (generate_result as_list (full_message env g items)), generated env items g).
Proof.
  intros Hp Hne Hi. unfold generate.
  destruct items as [|i0 items']; [congruence |].
  set (items := i0 :: items') in *.
  set (g1 := set_message_ref (_generate_message_reference env) (set_message [] g)).
  assert (Hp1 : forall m, parties_ok (set_message m g1) = true) by (intros m; exact Hp).
  unfold bind at 1. unfold bind at 1. fold g1.
  unfold bind at 1. unfold add_una_segment, append at 1.
  unfold bind at 1. rewrite add_header_run.
  unfold bind at 1. rewrite add_default_parties_run by apply Hp1.
  unfold bind at 1. rewrite add_transport_details_run.
  unfold bind at 1. rewrite add_line_items_ok by exact Hi.
  unfold bind at 1. rewrite add_trailer_run.
  unfold bind, self_get, ret.
  rewrite !set_message_twice, !message_set_message.
  unfold generated, full_message, trailer_segment, body_segments, leading_segments.
  cbn -[_segment Py.str_int Py.join flat_map length Z.of_nat Z.add].
  reflexivity.
Qed.

Lemma generate_empty (as_list : bool) (env : Env) (g : RecadvGenerator) :
  generate [] as_list env g
  = (Raise (ValueError "At least one line item is required."), g).
Proof. reflexivity. Qed.

(** [generate] on a list with an item that fails a test. The segments
    appended before the failing item stay in [self.message]. *)
Lemma generate_bad (items : list line_item) (as_list : bool) (env : Env)
      (g : RecadvGenerator) :
  parties_ok g = true -> items <> [] -> forallb item_ok items = false ->
  exists msg g', generate items as_list env g = (Raise (ValueError msg), g').
Proof.
  intros Hp Hne Hi. unfold generate.
  destruct items as [|i0 items']; [congruence |].
  set (items := i0 :: items') in *.
  set (g1 := set_message_ref (_generate_message_reference env) (set_message [] g)).
  assert (Hp1 : forall m, parties_ok (set_message m g1) = true) by (intros m; exact Hp).
  unfold bind at 1. unfold bind at 1. fold g1.
  unfold bind at 1. unfold add_una_segment, append at 1.
  unfold bind at 1. rewrite add_header_run.
  unfold bind at 1. rewrite add_default_parties_run by apply Hp1.
  unfold bind at 1. rewrite add_transport_details_run.
  unfold bind at 1.
  match goal with
  | |- context [add_line_items items ?s] =>
      destruct (add_line_items_bad items s Hi) as (msg & g' & ->)
  end.
  eauto.
Qed.

(** ** The count in the trailer *)

Lemma digit_escape_char (c : ascii) :
  Py.is_ascii_digit c = true -> escape_char c = String c EmptyString.
Proof.
  intros H. unfold escape_char.
  destruct (Ascii.eqb_spec c "?") as [->|_]; [discriminate |].
  destruct (Ascii.eqb_spec c "'") as [->|_]; [discriminate |].
  destruct (Ascii.eqb_spec c ":") as [->|_]; [discriminate | reflexivity].
Qed.

Lemma digits_escape (s : string) :
  Py.all_chars Py.is_ascii_digit s = true -> escape_element s = s.
Proof.
  induction s as [|c s IH]; [reflexivity |].
  cbn [Py.all_chars]. intros [Hc Hs]%andb_true_iff.
  rewrite escape_element_cons, (digit_escape_char _ Hc), IH by exact Hs. reflexivity.
Qed.

Lemma string_of_uint_digits (d : Decimal.uint) :
  Py.all_chars Py.is_ascii_digit (NilEmpty.string_of_uint d) = true.
Proof. induction d; simpl; auto. Qed.

Lemma digits_prefix_append (ds : string) (c : ascii) (t : string) :
  Py.all_chars Py.is_ascii_digit ds = true -> Py.is_ascii_digit c = false ->
  digits_prefix (ds +:+ String c t) = ds.
Proof.
  intros Hds Hc. induction ds as [|x ds IH].
  - cbn. now rewrite Hc.
  - cbn [Py.all_chars] in Hds. apply andb_true_iff in Hds as [Hx Hds].
    change (String x ds +:+ String c t) with (String x (ds +:+ String c t)).
    cbn [digits_prefix]. now rewrite Hx, IH.
Qed.

(** [str(n)] of a natural number: its decimal digits, at least one. *)
Lemma str_int_nonneg (n : Z) :
  0 <= n ->
  exists d, Py.str_int n = NilEmpty.string_of_uint d
            /\ d <> Decimal.Nil /\ Z.of_uint d = n.
Proof.
  intros Hn. destruct n as [|p|p]; [| | lia].
  - exists (Decimal.D0 Decimal.Nil). repeat split. discriminate.
  - exists (Pos.to_uint p). unfold Py.str_int. cbn [Z.to_int NilZero.string_of_int].
    pose proof (Unsigned.to_uint_nonnil p) as Hnil.
    repeat split.
    + unfold NilZero.string_of_uint. destruct (Pos.to_uint p); [congruence | reflexivity..].
    + exact Hnil.
    + unfold Z.of_uint. now rewrite DecimalPos.Unsigned.of_to.
Qed.

Lemma str_int_digits (n : Z) :
  0 <= n ->
  Py.all_chars Py.is_ascii_digit (Py.str_int n) = true /\ Py.str_int n <> ""%string.
Proof.
  intros Hn. destruct (str_int_nonneg n Hn) as (d & -> & Hd & _).
  split; [apply string_of_uint_digits |].
  destruct d; [congruence | discriminate..].
Qed.

(** Reading back the count of a trailer segment. *)
Lemma trailer_count_segment (n : Z) (r : string) :
  0 <= n -> trailer_count (_segment "UNT" [Py.str_int n; r]) = Some n.
Proof.
  intros Hn.
  destruct (str_int_digits n Hn) as [Hdig Hne].
  destruct (str_int_nonneg n Hn) as (d & Hs & Hd & Hz).
  assert (Hread : forall c t, Py.is_ascii_digit c = false ->
            trailer_count ("UNT" +:+ "+" +:+ Py.str_int n +:+ String c t) = Some n).
  { intros c t Hc.
    change ("UNT" +:+ "+" +:+ Py.str_int n +:+ String c t)
      with (String "U" (String "N" (String "T" (String "+" (Py.str_int n +:+ String c t))))).
    cbn [trailer_count]. rewrite (digits_prefix_append _ _ _ Hdig Hc).
    destruct (Py.str_int n) eqn:Hstr; [congruence |].
    rewrite Hs, NilEmpty.usu. cbn [option_map]. now rewrite Hz. }
  unfold _segment. rewrite filter_cons.
  destruct (decide (Py.str_int n <> ""%string)) as [_|]; [| contradiction].
  rewrite filter_cons. destruct (decide (r <> ""%string)) as [Hr|Hr].
  - rewrite filter_nil. cbn [map]. unfold Py.join. cbn [String.concat].
    rewrite (digits_escape _ Hdig), !append_assoc. now apply Hread.
  - rewrite filter_nil. cbn [map]. unfold Py.join. cbn [String.concat].
    rewrite (digits_escape _ Hdig). now apply Hread.
Qed.



Lemma last_full_message (env : Env) (g : RecadvGenerator) (items : list line_item) :
  last (full_message env g items) = Some (trailer_segment env g items).
Proof. unfold full_message. apply last_snoc. Qed.

Lemma trailer_count_full_message (env : Env) (g : RecadvGenerator) (items : list line_item) :
  trailer_count (trailer_segment env g items)
  = Some (Z.of_nat (length (full_message env g items))).
Proof.
  unfold trailer_segment. rewrite trailer_count_segment by lia.
  f_equal. unfold full_message. rewrite length_app. cbn [length]. lia.
Qed.






(** ** Two runs on the same inputs *)




Lemma full_message_cons (env : Env) (g : RecadvGenerator) (items : list line_item) :
  full_message env g items
  = "UNA:+.? '"%string
    :: _segment "UNH" [_generate_message_reference env; "RECADV:D:96A:UN:EAN008"%string]
    :: _segment "BGM" ["351"%string; document_number g; "9"%string]
    :: _segment "DTM" ["137:" +:+ strftime_dtm env +:+ ":203"]
    :: _segment "RFF" ["DQ:" +:+ reference_number g]
    :: _segment "NAD" ["BY"%string; buyer_ean g +:+ "::9"]
    :: _segment "NAD" ["SU"%string; supplier_ean g +:+ "::9"]
    :: _segment "TDT" ["20"%string; ""%string; ""%string; "31"%string; ""%string; carrier g]
    :: _segment "LOC" ["9"%string; delivery_location g]
    :: (flat_map item_segments items ++ [trailer_segment env g items]).
Proof. reflexivity. Qed.




(** ** The tests on the input *)

Lemma ascii_digit_isdigit_char (c : ascii) :
  Py.is_ascii_digit c = true -> Py.isdigit_char c = true.
Proof. unfold Py.isdigit_char. now intros ->. Qed.

Lemma ascii_digits_isdigit (s : string) :
  Py.all_chars Py.is_ascii_digit s = true -> s <> ""%string -> Py.isdigit s = true.
Proof.
  intros Hs Hne. destruct s as [|c s]; [congruence |]. unfold Py.isdigit.
  clear Hne. revert Hs. generalize (String c s). intros t.
  induction t as [|x t IH]; [reflexivity |].
  cbn [Py.all_chars]. intros [Hx Ht]%andb_true_iff.
  now rewrite (ascii_digit_isdigit_char _ Hx), IH.
Qed.

(** The test of [_validate_ean] in full: thirteen characters, each of them
    a digit in the sense of [str.isdigit]. *)
Lemma ean_ok_iff (e : string) :
  ean_ok e = true <->
  String.length e = 13%nat /\ Py.all_chars Py.isdigit_char e = true.
Proof.
  unfold ean_ok, Py.len. rewrite andb_true_iff, Z.eqb_eq.
  destruct e as [|c e].
  - split; [intros [H _]; discriminate | intros [H _]; discriminate].
  - unfold Py.isdigit. split; intros [H1 H2]; split; try assumption; lia.
Qed.

(** Thirteen ASCII digits pass the test of [_validate_ean]. *)
Lemma ascii_ean13_ok (e : string) : ascii_ean13 e = true -> ean_ok e = true.
Proof.
  unfold ascii_ean13, ean_ok. intros [Hd Hl]%andb_true_iff.
  apply Nat.eqb_eq in Hl. apply andb_true_iff. split.
  - apply ascii_digits_isdigit; [exact Hd |]. intros ->. discriminate.
  - unfold Py.len. rewrite Hl. reflexivity.
Qed.

(** An [int] passes the quantity test exactly when it is not negative. *)
Lemma isdigit_str_int (n : Z) : Py.isdigit (Py.str_int n) = true <-> 0 <= n.
Proof.
  split.
  - destruct n as [|p|p]; [lia | lia |]. intros H. exfalso.
    unfold Py.str_int in H. cbn [Z.to_int NilZero.string_of_int] in H.
    unfold Py.isdigit in H. cbn [Py.all_chars] in H.
    apply andb_true_iff in H as [H _]. discriminate.
  - intros Hn. destruct (str_int_digits n Hn) as [Hd Hne].
    now apply ascii_digits_isdigit.
Qed.

Lemma forallb_item_ok_false (items : list line_item) :
  forallb item_ok items = false <->
  exists item, In item items
               /\ (ean_ok (ean item) = false \/ Py.isdigit (str_qty (qty item)) = false).
Proof.
  split.
  - induction items as [|i items IH]; [discriminate |].
    cbn [forallb]. intros [Hi|Hr]%andb_false_iff.
    + exists i. split; [now left |]. unfold item_ok in Hi. now apply andb_false_iff in Hi.
    + destruct (IH Hr) as (x & Hx & Hbad). exists x. split; [now right | exact Hbad].
  - intros (x & Hx & Hbad).
    destruct (forallb item_ok items) eqn:Hall; [| reflexivity].
    rewrite forallb_forall in Hall. specialize (Hall x Hx).
    unfold item_ok in Hall. apply andb_true_iff in Hall as [He Hq].
    destruct Hbad; congruence.
Qed.

(** What the tests of the code decide, for line items that carry the keys
    [line_no], [ean] and [qty]: [generate] raises [ValueError] exactly when
    the list is empty or some item fails one of the two tests of
    [add_line_item], [ean.isdigit() and len(ean) == 13] for the EAN and
    [str(qty).isdigit()] for the quantity. Thirteen ASCII digits pass the
    first, and an [int] passes the second exactly when it is not negative.
    On an EAN that fails the test, [add_party] and [add_line_item] raise and
    leave the generator as it was. *)
Theorem generate_raises_iff
        (items : list line_item) (as_list : bool) (env : Env) (g : RecadvGenerator) :
  parties_ok g = true ->
  (raises_ValueError (fst (generate items as_list env g)) <->
     items = []
     \/ exists item, In item items
                     /\ (ean_ok (ean item) = false
                         \/ Py.isdigit (str_qty (qty item)) = false))
  /\ (raised (fst (generate items as_list env g)) ->
      raises_ValueError (fst (generate items as_list env g)))
  /\ (forall e, ascii_ean13 e = true -> ean_ok e = true)
  /\ (forall n, Py.isdigit (str_qty (QInt n)) = true <-> 0 <= n)
  /\ (forall q e g0, ean_ok e = false ->
        exists msg, add_party q e g0 = (Raise (ValueError msg), g0))
  /\ (forall l e q c w g0, ean_ok e = false ->
        exists msg, add_line_item l e q c w g0 = (Raise (ValueError msg), g0)).
Proof.
  intros Hp.
  assert (Hcases : (items = [] \/ forallb item_ok items = false)
                   \/ (items <> [] /\ forallb item_ok items = true)).
  { destruct items as [|i items]; [now left; left |].
    destruct (forallb item_ok (i :: items)); [right | left; right]; easy. }
  split; [| split; [| split; [| split; [| split]]]].
  - destruct Hcases as [[-> | Hbad] | [Hne Hall]].
    + rewrite generate_empty. cbn [fst raises_ValueError]. split; [now left | easy].
    + destruct items as [|i items]; [discriminate |].
      destruct (generate_bad (i :: items) as_list env g Hp ltac:(discriminate) Hbad)
        as (msg & g' & ->).
      cbn [fst raises_ValueError]. split; [intros _; right; now apply forallb_item_ok_false | easy].
    + rewrite (generate_ok items as_list env g Hp Hne Hall). cbn [fst raises_ValueError].
      split; [easy |]. intros [-> | Hex]; [congruence |].
      apply forallb_item_ok_false in Hex. congruence.
  - destruct Hcases as [[-> | Hbad] | [Hne Hall]].
    + now rewrite generate_empty.
    + destruct items as [|i items]; [discriminate |].
      destruct (generate_bad (i :: items) as_list env g Hp ltac:(discriminate) Hbad)
        as (msg & g' & ->). easy.
    + now rewrite (generate_ok items as_list env g Hp Hne Hall).
  - exact ascii_ean13_ok.
  - intros n. apply isdigit_str_int.
  - intros q e g0 He. rewrite (add_party_bad q e g0 He). eauto.
  - intros l e q c w g0 He. apply add_line_item_bad. now rewrite He.
Qed.

Lemma generate_raises_iff_witness :
  (raises_ValueError (fst (generate [example_item] false example_env default_generator)) <->
     [example_item] = []
     \/ exists item, In item [example_item]
                     /\ (ean_ok (ean item) = false
                         \/ Py.isdigit (str_qty (qty item)) = false))
  /\ (raised (fst (generate [example_item] false example_env default_generator)) ->
      raises_ValueError (fst (generate [example_item] false example_env default_generator)))
  /\ (forall e, ascii_ean13 e = true -> ean_ok e = true)
  /\ (forall n, Py.isdigit (str_qty (QInt n)) = true <-> 0 <= n)
  /\ (forall q e g0, ean_ok e = false ->
        exists msg, add_party q e g0 = (Raise (ValueError msg), g0))
  /\ (forall l e q c w g0, ean_ok e = false ->
        exists msg, add_line_item l e q c w g0 = (Raise (ValueError msg), g0)).
Proof.
  apply (generate_raises_iff [example_item] false example_env default_generator).
  reflexivity.
Defined.

(** C5: the test of [_validate_ean], whose message reads "Must be 13
    digits", lets through characters that are digits for [str.isdigit] but
    not decimal digits. An EAN of thirteen superscript twos (U+00B2) is not
    made of ASCII decimal digits, and [generate] takes it, returns, and
    puts it into the [LIN] segment. *)
Lemma generate_accepts_superscript_digits :
  ascii_ean13 (ean superscript_item) = false
  /\ String.length (ean superscript_item) = 13%nat
  /\ ~ raised (fst (generate [superscript_item] false example_env default_generator))
  /\ message (snd (generate [superscript_item] false example_env default_generator))
       !! 9%nat
     = Some ("LIN+1+EN?:" +:+ superscript_ean +:+ "'").
Proof. repeat split. vm_compute. tauto. Qed.

(** ** The message reference *)

Lemma append_same_length_inj (a1 a2 b1 b2 : string) :
  String.length a1 = String.length a2 ->
  a1 +:+ b1 = a2 +:+ b2 -> a1 = a2 /\ b1 = b2.
Proof.
  revert a2. induction a1 as [|x a1 IH]; intros [|y a2] Hl H; try discriminate.
  - now split.
  - change (String x (a1 +:+ b1) = String y (a2 +:+ b2)) in H.
    injection H as -> H. injection Hl as Hl.
    destruct (IH a2 Hl H) as [-> ->]. now split.
Qed.

Lemma parties_ok_generated (env : Env) (items : list line_item) (g : RecadvGenerator) :
  parties_ok (generated env items g) = parties_ok g.
Proof. reflexivity. Qed.

(** The reference in release2: every call of [generate] that returns sets
    the reference of the generator to the reading of the clock followed by
    the first eight hexadecimal digits of a new UUID, and the header and the
    trailer of its message carry that reference. Two successive calls on one
    generator, with clock readings of the same length, carry the same
    reference exactly when the clock readings and the eight digits kept of
    the UUIDs are the same; within one clock tick the references differ
    exactly when those eight digits differ. *)
Theorem message_reference_per_call
        (items1 items2 : list line_item) (as_list1 as_list2 : bool)
        (env1 env2 : Env) (g : RecadvGenerator) :
  parties_ok g = true ->
  items1 <> [] -> forallb item_ok items1 = true ->
  items2 <> [] -> forallb item_ok items2 = true ->
  exists r1 g1 r2 g2,
    generate items1 as_list1 env1 g = (Return r1, g1)
    /\ generate items2 as_list2 env2 g1 = (Return r2, g2)
    /\ message_ref g1 = strftime_ref env1 +:+ Py.slice_to 8 (uuid4_hex env1)
    /\ message_ref g2 = strftime_ref env2 +:+ Py.slice_to 8 (uuid4_hex env2)
    /\ message g1 !! 1%nat
       = Some (_segment "UNH" [message_ref g1; "RECADV:D:96A:UN:EAN008"%string])
    /\ (exists n, last (message g1) = Some (_segment "UNT" [Py.str_int n; message_ref g1]))
    /\ message g2 !! 1%nat
       = Some (_segment "UNH" [message_ref g2; "RECADV:D:96A:UN:EAN008"%string])
    /\ (exists n, last (message g2) = Some (_segment "UNT" [Py.str_int n; message_ref g2]))
    /\ (String.length (strftime_ref env1) = String.length (strftime_ref env2) ->
        (message_ref g1 = message_ref g2 <->
         strftime_ref env1 = strftime_ref env2
         /\ Py.slice_to 8 (uuid4_hex env1) = Py.slice_to 8 (uuid4_hex env2))).
Proof.
  intros Hp Hne1 Hi1 Hne2 Hi2.
  exists (generate_result as_list1 (full_message env1 g items1)), (generated env1 items1 g),
         (generate_result as_list2 (full_message env2 (generated env1 items1 g) items2)),
         (generated env2 items2 (generated env1 items1 g)).
  split; [now apply generate_ok |].
  split; [apply generate_ok; [now rewrite parties_ok_generated | assumption..] |].
  do 3 (split; [reflexivity |]).
  split; [eexists; apply last_full_message |].
  split; [reflexivity |].
  split.
  { eexists. unfold generated at 1. rewrite message_set_message. apply last_full_message. }
  intros Hlen. cbn [generated message_ref set_message set_message_ref].
  unfold _generate_message_reference. split.
  - now apply append_same_length_inj.
  - now intros [-> ->].
Qed.

Lemma message_reference_per_call_witness :
  exists g1 g2,
    snd (generate [example_item] false example_env default_generator) = g1
    /\ snd (generate [example_item] false example_env_later g1) = g2
    /\ message_ref g1 = "202501011200deadbeef"%string
    /\ message_ref g2 = "20250101120101234567"%string
    /\ message g1 !! 1%nat
       = Some (_segment "UNH" [message_ref g1; "RECADV:D:96A:UN:EAN008"%string])
    /\ message g2 !! 1%nat
       = Some (_segment "UNH" [message_ref g2; "RECADV:D:96A:UN:EAN008"%string])
    /\ (message_ref g1 = message_ref g2 <->
        strftime_ref example_env = strftime_ref example_env_later
        /\ Py.slice_to 8 (uuid4_hex example_env)
           = Py.slice_to 8 (uuid4_hex example_env_later)).
Proof.
  destruct (message_reference_per_call [example_item] [example_item] false false
              example_env example_env_later default_generator
              eq_refl ltac:(discriminate) eq_refl ltac:(discriminate) eq_refl)
    as (r1 & g1 & r2 & g2 & E1 & E2 & R1 & R2 & U1 & _ & U2 & _ & Hiff).
  exists g1, g2.
  rewrite E1. cbn [snd]. rewrite E2. cbn [snd].
  exact (conj eq_refl (conj eq_refl (conj R1 (conj R2 (conj U1 (conj U2 (Hiff eq_refl))))))).
Defined.

(** Two successive calls within one clock tick whose UUIDs differ, but not
    in their first eight hexadecimal digits, carry the same message
    reference. *)
Lemma same_reference_on_equal_uuid_prefix :
  uuid4_hex example_env <> uuid4_hex example_env_same_prefix
  /\ strftime_ref example_env = strftime_ref example_env_same_prefix
  /\ exists r1 g1 r2 g2,
       generate [example_item] false example_env default_generator = (Return r1, g1)
       /\ generate [example_item] false example_env_same_prefix g1 = (Return r2, g2)
       /\ message_ref g1 = "202501011200deadbeef"%string
       /\ message_ref g2 = "202501011200deadbeef"%string
       /\ message g1 !! 1%nat = message g2 !! 1%nat.
Proof.
  split; [discriminate |]. split; [reflexivity |].
  eexists _, _, _, _.
  split; [apply generate_ok; [reflexivity | discriminate | reflexivity] |].
  split; [apply generate_ok; [reflexivity | discriminate | reflexivity] |].
  vm_compute. repeat split.
Qed.

(** *** The older variant: one reference for the life of the generator *)

Lemma keeps_reference_bind {A B} (m : method Refactor5.RecadvGenerator A)
      (k : A -> method Refactor5.RecadvGenerator B) :
  keeps_reference m -> (forall a, keeps_reference (k a)) -> keeps_reference (bind m k).
Proof.
  intros Hm Hk g o g'. unfold bind.
  destruct (m g) as [[a|e] g1] eqn:Hmg.
  - intros H. rewrite (Hk a _ _ _ H). exact (Hm _ _ _ Hmg).
  - intros [= <- <-]. exact (Hm _ _ _ Hmg).
Qed.

Lemma keeps_reference_append (seg : string) : keeps_reference (Refactor5.append seg).
Proof. intros g o g' [= <- <-]. reflexivity. Qed.

Lemma keeps_reference_pure {A} (o : outcome A) : keeps_reference (lift o).
Proof. intros g o' g' [= <- <-]. reflexivity. Qed.

Lemma keeps_reference_get {A} (f : Refactor5.RecadvGenerator -> A) :
  keeps_reference (self_get f).
Proof. intros g o' g' [= <- <-]. reflexivity. Qed.

Create HintDb keeps.
#[local] Hint Resolve keeps_reference_append keeps_reference_get : keeps.
#[local] Hint Extern 1 (keeps_reference (lift _)) => apply keeps_reference_pure : keeps.
#[local] Hint Extern 1 (keeps_reference (ret _)) => apply (keeps_reference_pure (Return _)) : keeps.
#[local] Hint Extern 1 (keeps_reference (throw _)) => apply (keeps_reference_pure (Raise _)) : keeps.
#[local] Hint Extern 2 (keeps_reference (bind _ _)) =>
  apply keeps_reference_bind; [| intros ?] : keeps.

Lemma keeps_reference_add_line_items (items : list (string * string * string)) :
  keeps_reference (Refactor5.add_line_items items).
Proof.
  induction items as [|[[l e] q] items IH]; cbn [Refactor5.add_line_items].
  - auto with keeps.
  - apply keeps_reference_bind; [| intros _; exact IH].
    unfold Refactor5.add_line_item. auto 10 with keeps.
Qed.

(** In refactor5 the reference is drawn by [__init__], and [generate] never
    assigns it: every call on one generator carries the same reference. *)
Lemma refactor5_generate_keeps_reference
      (items : list (string * string * string)) (strftime_dtm : string) :
  keeps_reference (Refactor5.generate items strftime_dtm).
Proof.
  unfold Refactor5.generate. destruct items as [|i items]; [auto with keeps |].
  apply keeps_reference_bind; [intros g o g' [= <- <-]; reflexivity | intros _].
  apply keeps_reference_bind; [apply keeps_reference_append | intros _].
  apply keeps_reference_bind; [unfold Refactor5.add_header; auto 12 with keeps | intros _].
  apply keeps_reference_bind; [unfold Refactor5.add_parties; auto 12 with keeps | intros _].
  apply keeps_reference_bind; [unfold Refactor5.add_transport_details; auto 12 with keeps | intros _].
  apply keeps_reference_bind; [apply keeps_reference_add_line_items | intros _].
  apply keeps_reference_bind; [unfold Refactor5.add_trailer; auto 12 with keeps | intros _].
  auto with keeps.
Qed.

(** ** The message of the end-to-end example *)

Lemma init_default :
  __init__ "CarrierX" "DEHAM" "5412345000176" "4012345500004" "123456789"
           "output" "RECADV001" false
  = Return default_generator.
Proof. reflexivity. Qed.

(** C3: the message that [generate] builds for the line item of the
    example, whatever the clock and the UUID. The [BGM] segment and the
    order of the segments are as expected; but the colons of the composite
    elements are escaped, so the GLNs end in [?:?:9] and the [LIN] and [QTY]
    segments read [EN?:...] and [113?:12], and the empty second element of
    [LIN] and the empty elements of [TDT] are left out. *)
Theorem end_to_end_example (env : Env) :
  exists r g',
    generate [example_item] false env default_generator = (Return r, g')
    /\ map tag_of (message g')
       = ["UNA"; "UNH"; "BGM"; "DTM"; "RFF"; "NAD"; "NAD"; "TDT"; "LOC";
          "LIN"; "QTY"; "PAC"; "MEA"; "UNT"]%string
    /\ message g' !! 2%nat = Some "BGM+351+RECADV001+9'"%string
    /\ message g' !! 5%nat = Some "NAD+BY+5412345000176?:?:9'"%string
    /\ message g' !! 6%nat = Some "NAD+SU+4012345500004?:?:9'"%string
    /\ message g' !! 7%nat = Some "TDT+20+31+CarrierX'"%string
    /\ message g' !! 9%nat = Some "LIN+1+EN?:4000862141404'"%string
    /\ message g' !! 10%nat = Some "QTY+113?:12'"%string
    /\ (exists t, message g' !! 13%nat = Some t /\ trailer_count t = Some 14)
    /\ ~ In "LIN+1++EN:4000862141404'"%string (message g')
    /\ ~ In "QTY+113:12'"%string (message g').
Proof.
  eexists _, _.
  split; [apply generate_ok; [reflexivity | discriminate | reflexivity] |].
  unfold generated. rewrite message_set_message.
  split; [reflexivity |].
  do 6 (split; [reflexivity |]).
  split.
  { eexists. split; [reflexivity |]. apply (trailer_count_full_message env default_generator [example_item]). }
  rewrite full_message_cons.
  split; intros Hin; cbn [In flat_map app] in Hin;
    repeat (destruct Hin as [Hin | Hin]; [discriminate Hin |]); exact Hin.
Qed.

(** ** Saving the message *)

Section Save.

Variables (items : list line_item) (filename : option string).
Variables (env : Env) (io : IOEnv) (g : RecadvGenerator) (fs : FS).

Hypothesis parties : parties_ok g = true.
Hypothesis some_item : items <> [].
Hypothesis items_pass : forallb item_ok items = true.

(** The temporary name is new in the directory, as [NamedTemporaryFile]
    makes sure, and it is not the empty string. *)
Hypothesis tmp_new : fs !! temporary_path io g = None.
Hypothesis tmp_named : temporary_path io g <> ""%string.

Lemma generate_and_save_unfold :
  generate_and_save items filename env io g fs
  = let '(o, tmp_file, fs') :=
      try_body io (output_dir g) (saved_text env g items)
               (target_path filename (generated env items g)) fs in
    match o with
    | Raise e => (Raise e, generated env items g, finally_clause tmp_file fs')
    | Return _ => (Return (target_path filename (generated env items g)),
                   generated env items g, finally_clause tmp_file fs')
    end.
Proof.
  unfold generate_and_save.
  rewrite (generate_ok items false env g parties some_item items_pass).
  reflexivity.
Qed.






(** [tmp.write] fails: the variable [tmp_file] is still [None] when the
    [finally] clause runs, and the temporary file stays. *)
Lemma save_write_fails (partial : string) :
  io_fault io = WriteFails partial ->
  generate_and_save items filename env io g fs
  = (Raise OSError, generated env items g, <[temporary_path io g := partial]> fs).
Proof.
  intros Hf. rewrite generate_and_save_unfold. unfold try_body. rewrite Hf.
  fold (temporary_path io g).
  cbn [finally_clause]. now rewrite insert_insert_eq.
Qed.

End Save.

(** C4: when [tmp.write] raises, [generate_and_save] raises and leaves the
    temporary file, with whatever was written of the text, in the output
    directory, next to the files that were there; nothing is at the target
    path unless a file was there before. *)
Theorem write_failure_leaves_temporary_file
        (items : list line_item) (filename : option string) (env : Env) (io : IOEnv)
        (g : RecadvGenerator) (fs : FS) (partial : string) :
  parties_ok g = true -> items <> [] -> forallb item_ok items = true ->
  fs !! temporary_path io g = None ->
  io_fault io = WriteFails partial ->
  exists g' fs',
    generate_and_save items filename env io g fs = (Raise OSError, g', fs')
    /\ fs' !! temporary_path io g = Some partial
    /\ (forall p, p <> temporary_path io g -> fs' !! p = fs !! p).
Proof.
  intros Hp Hne Hi Hnew Hf.
  eexists _, _.
  split; [exact (save_write_fails items filename env io g fs Hp Hne Hi partial Hf) |].
  split; [apply lookup_insert_eq |].
  intros p Hp'. apply lookup_insert_ne. congruence.
Qed.

Lemma write_failure_leaves_temporary_file_witness :
  exists g' fs',
    generate_and_save [example_item] None example_env
      {| tmp_basename := "tmpk3v9x2qa"; io_fault := WriteFails "";
         isdir := example_isdir |}
      default_generator ∅
    = (Raise OSError, g', fs')
    /\ fs' !! temporary_path {| tmp_basename := "tmpk3v9x2qa"; io_fault := WriteFails "";
         isdir := example_isdir |}
                             default_generator
       = Some ""%string
    /\ (forall p,
          p <> temporary_path {| tmp_basename := "tmpk3v9x2qa"; io_fault := WriteFails "";
         isdir := example_isdir |}
                              default_generator ->
          fs' !! p = (∅ : FS) !! p).
Proof.
  apply (write_failure_leaves_temporary_file [example_item] None example_env
           {| tmp_basename := "tmpk3v9x2qa"; io_fault := WriteFails "";
         isdir := example_isdir |}
           default_generator ∅ ""%string).
  - reflexivity.
  - discriminate.
  - reflexivity.
  - reflexivity.
  - reflexivity.
Defined.

(** * Further properties of release2 *)

(** ** The escaping keeps elements apart *)

Lemma escape_char_prefix_inj (c d : ascii) (s t : string) :
  escape_char c +:+ s = escape_char d +:+ t -> c = d /\ s = t.
Proof.
  unfold escape_char. intros H.
  destruct (Ascii.eqb_spec c "?") as [->|Hc1];
    [| destruct (Ascii.eqb_spec c "'") as [->|Hc2];
       [| destruct (Ascii.eqb_spec c ":") as [->|Hc3]]];
    (destruct (Ascii.eqb_spec d "?") as [->|Hd1];
     [| destruct (Ascii.eqb_spec d "'") as [->|Hd2];
        [| destruct (Ascii.eqb_spec d ":") as [->|Hd3]]]);
    simpl in H; inversion H; subst; try congruence; auto.
Qed.

Lemma escape_element_empty (s : string) : escape_element s = ""%string -> s = ""%string.
Proof.
  destruct s as [|c s]; [reflexivity |].
  rewrite escape_element_cons. unfold escape_char.
  destruct (Ascii.eqb c "?"); [discriminate |].
  destruct (Ascii.eqb c "'"); [discriminate |].
  destruct (Ascii.eqb c ":"); discriminate.
Qed.

Lemma escape_element_inj (a b : string) :
  escape_element a = escape_element b -> a = b.
Proof.
  revert b. induction a as [|c a IH]; intros b H.
  - symmetry. apply escape_element_empty. now rewrite <- H.
  - destruct b as [|d b].
    + apply escape_element_empty in H. discriminate.
    + rewrite !escape_element_cons in H.
      apply escape_char_prefix_inj in H as [-> H]. f_equal. now apply IH.
Qed.

(** X1: two elements that differ are never rendered as the same escaped
    text, in either release. *)
Theorem escape_element_injective (a b : string) :
  a <> b ->
  escape_element a <> escape_element b
  /\ Release1.escape_element a <> Release1.escape_element b.
Proof.
  intros Hab. split; intros H; apply Hab; now apply escape_element_inj.
Qed.

Lemma escape_element_injective_witness :
  escape_element "a:b" <> escape_element "a?b"
  /\ Release1.escape_element "a:b" <> Release1.escape_element "a?b".
Proof. apply (escape_element_injective "a:b" "a?b"). discriminate. Defined.

(** ** Segment framing *)










(** ** One line item: four segments or none *)


(** ** A call that fails on an item *)

Lemma forallb_false_split {A} (f : A -> bool) (l : list A) :
  forallb f l = false ->
  exists good bad rest,
    l = good ++ bad :: rest /\ forallb f good = true /\ f bad = false.
Proof.
  induction l as [|x l IH]; [discriminate |].
  cbn [forallb]. destruct (f x) eqn:Hx.
  - intros H. destruct (IH H) as (good & bad & rest & -> & Hg & Hb).
    exists (x :: good), bad, rest. repeat split; [| exact Hb].
    cbn [forallb]. now rewrite Hx, Hg.
  - intros _. exists [], x, l. now repeat split.
Qed.





(** ** What earlier calls leave behind *)

(** X5: for a non-empty list of line items, the outcome of [generate] and
    the generator it leaves do not depend on the segments and the reference
    that earlier calls, returned or failed, left in the generator. *)
Theorem generate_forgets_earlier_calls
        (items : list line_item) (as_list : bool) (env : Env)
        (g : RecadvGenerator) (m : list string) (r : string) :
  items <> [] ->
  generate items as_list env (set_message m (set_message_ref r g))
  = generate items as_list env g.
Proof.
  intros Hne. destruct items as [|i items]; [congruence |]. reflexivity.
Qed.

Lemma generate_forgets_earlier_calls_witness :
  generate [example_item] false example_env_later
           (set_message ["UNA:+.? '"; "UNH+x+y'"]%string
                        (set_message_ref "202501011200deadbeef" default_generator))
  = generate [example_item] false example_env_later default_generator.
Proof.
  apply (generate_forgets_earlier_calls [example_item] false example_env_later
           default_generator ["UNA:+.? '"; "UNH+x+y'"]%string "202501011200deadbeef").
  discriminate.
Defined.

(** ** The configuration is read only *)

Lemma keeps_configuration_bind {A B} (m : method RecadvGenerator A)
      (k : A -> method RecadvGenerator B) :
  keeps_configuration m -> (forall a, keeps_configuration (k a)) ->
  keeps_configuration (bind m k).
Proof.
  intros Hm Hk g o g'. unfold bind.
  destruct (m g) as [[a|e] g1] eqn:Hmg.
  - intros H. rewrite (Hk a _ _ _ H). exact (Hm _ _ _ Hmg).
  - intros [= <- <-]. exact (Hm _ _ _ Hmg).
Qed.

Lemma keeps_configuration_append (seg : string) : keeps_configuration (append seg).
Proof. intros g o g' [= <- <-]. reflexivity. Qed.

Lemma keeps_configuration_lift {A} (o : outcome A) : keeps_configuration (lift o).
Proof. intros g o' g' [= <- <-]. reflexivity. Qed.

Lemma keeps_configuration_get {A} (f : RecadvGenerator -> A) :
  keeps_configuration (self_get f).
Proof. intros g o' g' [= <- <-]. reflexivity. Qed.

Lemma keeps_configuration_set_message (m : list string) :
  keeps_configuration (fun g => (Return tt, set_message m g)).
Proof. intros g o' g' [= <- <-]. reflexivity. Qed.

Lemma keeps_configuration_set_message_ref (r : string) :
  keeps_configuration (fun g => (Return tt, set_message_ref r g)).
Proof. intros g o' g' [= <- <-]. reflexivity. Qed.

Create HintDb config.
#[local] Hint Resolve keeps_configuration_append keeps_configuration_get
  keeps_configuration_set_message keeps_configuration_set_message_ref : config.
#[local] Hint Extern 1 (keeps_configuration (lift _)) =>
  apply keeps_configuration_lift : config.
#[local] Hint Extern 1 (keeps_configuration (ret _)) =>
  apply (keeps_configuration_lift (Return _)) : config.
#[local] Hint Extern 1 (keeps_configuration (throw _)) =>
  apply (keeps_configuration_lift (Raise _)) : config.
#[local] Hint Extern 1 (keeps_configuration (if ?b then _ else _)) =>
  destruct b : config.
#[local] Hint Extern 2 (keeps_configuration (bind _ _)) =>
  apply keeps_configuration_bind; [| intros ?] : config.

Lemma keeps_configuration_add_party (q e : string) :
  keeps_configuration (add_party q e).
Proof. unfold add_party. auto 6 with config. Qed.

Lemma keeps_configuration_add_line_item (l e : string) (q : quantity) (c : Z) (w : string) :
  keeps_configuration (add_line_item l e q c w).
Proof. unfold add_line_item. auto 12 with config. Qed.

Lemma keeps_configuration_add_line_items (items : list line_item) :
  keeps_configuration (add_line_items items).
Proof.
  induction items as [|i items IH]; cbn [add_line_items]; [auto with config |].
  apply keeps_configuration_bind; [apply keeps_configuration_add_line_item | intros _; exact IH].
Qed.

(** X6: [generate] never changes the configuration of the generator
    (carrier, delivery location, party identifiers, reference and document
    number, output directory, verbosity), whether it returns or raises and
    whatever the generator held. *)
Theorem generate_keeps_configuration
        (items : list line_item) (as_list : bool) (env : Env)
        (g g' : RecadvGenerator) (o : outcome rendered) :
  generate items as_list env g = (o, g') -> configuration g' = configuration g.
Proof.
  revert g o g'. change (keeps_configuration (generate items as_list env)).
  unfold generate. destruct items as [|i items]; [auto with config |].
  apply keeps_configuration_bind; [auto with config | intros _].
  apply keeps_configuration_bind; [auto with config | intros _].
  apply keeps_configuration_bind; [apply keeps_configuration_append | intros _].
  apply keeps_configuration_bind; [unfold add_header; auto 14 with config | intros _].
  apply keeps_configuration_bind.
  { unfold add_default_parties.
    apply keeps_configuration_bind; [auto with config | intros ?].
    apply keeps_configuration_bind; [apply keeps_configuration_add_party | intros _].
    apply keeps_configuration_bind; [auto with config | intros ?].
    apply keeps_configuration_add_party. }
  intros _.
  apply keeps_configuration_bind; [unfold add_transport_details; auto 10 with config | intros _].
  apply keeps_configuration_bind; [apply keeps_configuration_add_line_items | intros _].
  apply keeps_configuration_bind; [unfold add_trailer; auto 10 with config | intros _].
  auto 6 with config.
Qed.

Lemma generate_keeps_configuration_witness :
  configuration (snd (generate [negative_quantity_item] false example_env default_generator))
  = configuration default_generator.
Proof.
  apply (generate_keeps_configuration [negative_quantity_item] false example_env
           default_generator _ (fst (generate [negative_quantity_item] false example_env
                                       default_generator))).
  apply surjective_pairing.
Defined.

(** ** Where the segments of a line item stand *)





(** ** Saving: the branches that keep the directory clean *)







(** * Release1: the generator *)












(** *** The subscripts of the loop *)

Lemma bind_ext {S A B} (m : method S A) (k k' : A -> method S B) (g : S) :
  (forall a g', k a g' = k' a g') -> bind m k g = bind m k' g.
Proof.
  intros H. unfold bind. destruct (m g) as [[a|e] g']; [apply H | reflexivity].
Qed.





(** In release2 as well, [generate] on dicts that carry the three keys is
    [generate] on the items, and a dict that lacks a key, after items that
    pass, stops it with [KeyError]. *)
Lemma release2_dicts_loop (records : list line_item) (g : RecadvGenerator) :
  Release2Dicts.add_line_items (map dict_of records) g = add_line_items records g.
Proof.
  revert g. induction records as [|item records IH]; intros g; [reflexivity |].
  cbn [map Release2Dicts.add_line_items add_line_items].
  unfold dict_of at 1 2 3 4 5.
  cbn [dict_line_no dict_ean dict_qty dict_cartons dict_weight subscript].
  unfold bind at 1, lift at 1. unfold bind at 1, lift at 1. unfold bind at 1, lift at 1.
  apply bind_ext. intros _ g'. apply IH.
Qed.

Lemma release2_dicts_generate (records : list line_item) (as_list : bool) (env : Env)
      (g : RecadvGenerator) :
  Release2Dicts.generate (map dict_of records) as_list env g
  = generate records as_list env g.
Proof.
  destruct records as [|i records]; [reflexivity |].
  change (map dict_of (i :: records)) with (dict_of i :: map dict_of records).
  unfold Release2Dicts.generate, generate.
  change (dict_of i :: map dict_of records) with (map dict_of (i :: records)).
  do 6 (apply bind_ext; intros _ ?).
  unfold bind at 1 3. now rewrite release2_dicts_loop.
Qed.

Lemma release2_dicts_loop_stop (good : list line_item) (bad : item_dict)
      (rest : list item_dict) (key : string) (g : RecadvGenerator) :
  forallb item_ok good = true -> first_missing bad = Some key ->
  Release2Dicts.add_line_items (map dict_of good ++ bad :: rest) g
  = (Raise (KeyError key), set_message (message g ++ flat_map item_segments good) g).
Proof.
  revert g. induction good as [|i good IH]; intros g Hg Hb.
  - cbn [map app Release2Dicts.add_line_items flat_map]. rewrite app_nil_r.
    unfold first_missing in Hb. unfold bind, lift, subscript.
    destruct (dict_line_no bad), (dict_ean bad), (dict_qty bad);
      try discriminate; injection Hb as <-; now destruct g.
  - cbn [forallb] in Hg. apply andb_true_iff in Hg as [Hi Hg].
    cbn [map app Release2Dicts.add_line_items].
    unfold dict_of at 1 2 3 4 5.
    cbn [dict_line_no dict_ean dict_qty dict_cartons dict_weight subscript].
    unfold bind at 1, lift at 1. unfold bind at 1, lift at 1. unfold bind at 1, lift at 1.
    rewrite (bind_return _ _ _ _ _ (add_line_item_ok _ _ Hi)).
    rewrite (IH _ Hg Hb). cbn [flat_map message set_message].
    now rewrite <- app_assoc.
Qed.



(** Reading the count after [UNT+], up to the first character that is not
    a digit. *)
Lemma trailer_count_read (n : Z) (c : ascii) (t : string) :
  0 <= n -> Py.is_ascii_digit c = false ->
  trailer_count ("UNT" +:+ "+" +:+ Py.str_int n +:+ String c t) = Some n.
Proof.
  intros Hn Hc.
  destruct (str_int_digits n Hn) as [Hdig Hne].
  destruct (str_int_nonneg n Hn) as (d & Hs & Hd & Hz).
  change ("UNT" +:+ "+" +:+ Py.str_int n +:+ String c t)
    with (String "U" (String "N" (String "T" (String "+" (Py.str_int n +:+ String c t))))).
  cbn [trailer_count]. rewrite (digits_prefix_append _ _ _ Hdig Hc).
  destruct (Py.str_int n) eqn:Hstr; [congruence |].
  rewrite Hs, NilEmpty.usu. cbn [option_map]. now rewrite Hz.
Qed.








(** * Refactor5: the generator *)

Lemma refactor5_add_line_item_ok (l e q : string) (g : Refactor5.RecadvGenerator) :
  ean_ok e = true ->
  Refactor5.add_line_item l e q g
  = (Return tt, Refactor5.set_message
                  (Refactor5.message g ++ refactor5_item_segments (l, e, q)) g).
Proof.
  intros He. unfold Refactor5.add_line_item, bind, lift, Refactor5.append.
  rewrite (_validate_ean_ok _ He).
  cbn -[Release1._segment String.append].
  unfold refactor5_item_segments, Refactor5._segment. now rewrite <- !app_assoc.
Qed.

Lemma refactor5_add_line_item_bad (l e q : string) (g : Refactor5.RecadvGenerator) :
  ean_ok e = false ->
  Refactor5.add_line_item l e q g
  = (Raise (ValueError ("Invalid EAN: " +:+ e +:+ ". Must be 13 digits.")), g).
Proof.
  intros He. unfold Refactor5.add_line_item, bind, lift.
  now rewrite (_validate_ean_bad _ He).
Qed.

Lemma refactor5_add_line_items_ok (items : list (string * string * string))
      (g : Refactor5.RecadvGenerator) :
  forallb (fun i => ean_ok (refactor5_ean i)) items = true ->
  Refactor5.add_line_items items g
  = (Return tt, Refactor5.set_message
                  (Refactor5.message g ++ flat_map refactor5_item_segments items) g).
Proof.
  revert g. induction items as [|[[l e] q] items IH]; intros g H.
  - cbn. rewrite app_nil_r. now destruct g.
  - cbn [forallb refactor5_ean] in H. apply andb_true_iff in H as [Hi Hr].
    cbn [Refactor5.add_line_items].
    rewrite (bind_return _ _ _ _ _ (refactor5_add_line_item_ok _ _ _ _ Hi)).
    rewrite IH by exact Hr. cbn [flat_map Refactor5.message Refactor5.set_message].
    now rewrite <- app_assoc.
Qed.

Lemma refactor5_add_line_items_stop (good : list (string * string * string))
      (bad : string * string * string) (rest : list (string * string * string))
      (g : Refactor5.RecadvGenerator) :
  forallb (fun i => ean_ok (refactor5_ean i)) good = true ->
  ean_ok (refactor5_ean bad) = false ->
  exists msg,
    Refactor5.add_line_items (good ++ bad :: rest) g
    = (Raise (ValueError msg),
       Refactor5.set_message
         (Refactor5.message g ++ flat_map refactor5_item_segments good) g).
Proof.
  revert g. induction good as [|[[l e] q] good IH]; intros g Hg Hb.
  - destruct bad as [[l e] q]. cbn [refactor5_ean] in Hb.
    cbn [app Refactor5.add_line_items flat_map].
    rewrite (bind_raise _ _ _ _ _ (refactor5_add_line_item_bad l e q g Hb)), app_nil_r.
    eexists. now destruct g.
  - cbn [forallb refactor5_ean] in Hg. apply andb_true_iff in Hg as [Hi Hg].
    cbn [app Refactor5.add_line_items].
    rewrite (bind_return _ _ _ _ _ (refactor5_add_line_item_ok _ _ _ _ Hi)).
    destruct (IH (Refactor5.set_message
                    (Refactor5.message g ++ refactor5_item_segments (l, e, q)) g) Hg Hb)
      as [msg ->].
    exists msg. cbn [flat_map Refactor5.message Refactor5.set_message].
    now rewrite <- app_assoc.
Qed.

Lemma refactor5_generate_ok (items : list (string * string * string))
      (strftime_dtm : string) (g : Refactor5.RecadvGenerator) :
  items <> [] -> forallb (fun i => ean_ok (refactor5_ean i)) items = true ->
  Refactor5.generate items strftime_dtm g
  = (Return (Py.join Py.LF (refactor5_full_message strftime_dtm g items)),
     Refactor5.set_message (refactor5_full_message strftime_dtm g items) g).
Proof.
  intros Hne Hi. unfold Refactor5.generate.
  destruct items as [|i0 items']; [congruence |].
  set (items := i0 :: items') in *.
  unfold bind at 1. unfold bind at 1.
  unfold Refactor5.add_una_segment, Refactor5.append at 1.
  unfold bind at 1.
  replace (Refactor5.add_header strftime_dtm _)
    with (Return tt,
          Refactor5.set_message
            [ "UNA:+.? '"%string;
              Release1._segment "UNH" [Refactor5.message_ref g; "RECADV:D:96A:UN:EAN008"%string];
              Release1._segment "BGM" ["351"; "RECADV001"; "9"]%string;
              Release1._segment "DTM" ["137:" +:+ strftime_dtm +:+ ":203"];
              Release1._segment "RFF" ["DQ:" +:+ Refactor5.reference_number g] ] g)
    by reflexivity.
  unfold bind at 1.
  replace (Refactor5.add_parties _)
    with (Return tt,
          Refactor5.set_message
            [ "UNA:+.? '"%string;
              Release1._segment "UNH" [Refactor5.message_ref g; "RECADV:D:96A:UN:EAN008"%string];
              Release1._segment "BGM" ["351"; "RECADV001"; "9"]%string;
              Release1._segment "DTM" ["137:" +:+ strftime_dtm +:+ ":203"];
              Release1._segment "RFF" ["DQ:" +:+ Refactor5.reference_number g];
              Release1._segment "NAD" ["BY"%string; Refactor5.buyer_ean g +:+ "::9"];
              Release1._segment "NAD" ["SU"%string; Refactor5.supplier_ean g +:+ "::9"] ] g)
    by reflexivity.
  unfold bind at 1.
  replace (Refactor5.add_transport_details _)
    with (Return tt,
          Refactor5.set_message (refactor5_leading_segments strftime_dtm g) g)
    by reflexivity.
  unfold bind at 1. rewrite refactor5_add_line_items_ok by exact Hi.
  reflexivity.
Qed.

Lemma refactor5_generate_stop (good : list (string * string * string))
      (bad : string * string * string) (rest : list (string * string * string))
      (strftime_dtm : string) (g : Refactor5.RecadvGenerator) :
  forallb (fun i => ean_ok (refactor5_ean i)) good = true ->
  ean_ok (refactor5_ean bad) = false ->
  exists msg,
    Refactor5.generate (good ++ bad :: rest) strftime_dtm g
    = (Raise (ValueError msg),
       Refactor5.set_message
         (refactor5_leading_segments strftime_dtm g
          ++ flat_map refactor5_item_segments good) g).
Proof.
  intros Hg Hb. unfold Refactor5.generate.
  destruct (good ++ bad :: rest) as [|i0 items'] eqn:Hitems; [now destruct good |].
  rewrite <- Hitems. clear Hitems i0 items'.
  unfold bind at 1. unfold bind at 1.
  unfold Refactor5.add_una_segment, Refactor5.append at 1.
  unfold bind at 1.
  replace (Refactor5.add_header strftime_dtm _)
    with (Return tt,
          Refactor5.set_message
            [ "UNA:+.? '"%string;
              Release1._segment "UNH" [Refactor5.message_ref g; "RECADV:D:96A:UN:EAN008"%string];
              Release1._segment "BGM" ["351"; "RECADV001"; "9"]%string;
              Release1._segment "DTM" ["137:" +:+ strftime_dtm +:+ ":203"];
              Release1._segment "RFF" ["DQ:" +:+ Refactor5.reference_number g] ] g)
    by reflexivity.
  unfold bind at 1.
  replace (Refactor5.add_parties _)
    with (Return tt,
          Refactor5.set_message
            [ "UNA:+.? '"%string;
              Release1._segment "UNH" [Refactor5.message_ref g; "RECADV:D:96A:UN:EAN008"%string];
              Release1._segment "BGM" ["351"; "RECADV001"; "9"]%string;
              Release1._segment "DTM" ["137:" +:+ strftime_dtm +:+ ":203"];
              Release1._segment "RFF" ["DQ:" +:+ Refactor5.reference_number g];
              Release1._segment "NAD" ["BY"%string; Refactor5.buyer_ean g +:+ "::9"];
              Release1._segment "NAD" ["SU"%string; Refactor5.supplier_ean g +:+ "::9"] ] g)
    by reflexivity.
  unfold bind at 1.
  replace (Refactor5.add_transport_details _)
    with (Return tt,
          Refactor5.set_message (refactor5_leading_segments strftime_dtm g) g)
    by reflexivity.
  unfold bind at 1.
  match goal with
  | |- context [Refactor5.add_line_items _ ?s] =>
      destruct (refactor5_add_line_items_stop good bad rest s Hg Hb) as [msg ->]
  end.
  exists msg. reflexivity.
Qed.

Lemma forallb_refactor5_ean_false (items : list (string * string * string)) :
  forallb (fun i => ean_ok (refactor5_ean i)) items = false <->
  exists item, In item items /\ ean_ok (refactor5_ean item) = false.
Proof.
  split.
  - intros H. destruct (forallb_false_split _ _ H) as (good & bad & rest & -> & _ & Hb).
    exists bad. split; [apply in_elt | exact Hb].
  - intros (x & Hx & Hbad).
    destruct (forallb (fun i => ean_ok (refactor5_ean i)) items) eqn:Hall; [| reflexivity].
    rewrite forallb_forall in Hall. specialize (Hall x Hx). cbn beta in Hall. congruence.
Qed.

(** C9: refactor5 draws the reference in [__init__] and not in [generate].
    Two successive calls of [generate] on one generator, at different times,
    return two messages with the same reference in their [UNH] and [UNT]
    segments: the reference that the constructor drew. *)
Theorem refactor5_same_reference_twice :
  exists g t1 g1 t2 g2,
    refactor5_default {| Refactor5.strftime_ref := "202501011200";
                         Refactor5.uuid4_int := "250334169571669407163800140488498123456" |}
    = Return g
    /\ Refactor5.generate [("1", "4000862141404", "12")]%string "20250101:1200" g
       = (Return t1, g1)
    /\ Refactor5.generate [("1", "4000862141404", "12")]%string "20250101:1201" g1
       = (Return t2, g2)
    /\ t1 <> t2
    /\ Refactor5.message_ref g = "2025010112002503"%string
    /\ Refactor5.message g1 !! 1%nat
       = Some "UNH+2025010112002503+RECADV?:D?:96A?:UN?:EAN008'"%string
    /\ Refactor5.message g2 !! 1%nat
       = Some "UNH+2025010112002503+RECADV?:D?:96A?:UN?:EAN008'"%string
    /\ last (Refactor5.message g1) = Some "UNT+14+2025010112002503'"%string
    /\ last (Refactor5.message g2) = Some "UNT+14+2025010112002503'"%string.
Proof.
  eexists _, _, _, _, _.
  split; [reflexivity |].
  split; [apply refactor5_generate_ok; [discriminate | reflexivity] |].
  split; [apply refactor5_generate_ok; [discriminate | reflexivity] |].
  split; [vm_compute; discriminate |].
  vm_compute. repeat split.
Qed.

(** X13: in refactor5 the message reference is drawn once, by [__init__]:
    no call of [generate], returning or raising, changes it, and the
    messages of two successive calls on one generator carry the same
    reference in their [UNH] segment. *)
Theorem refactor5_one_reference_per_generator
        (env : Refactor5.InitEnv) (c d b s r o : string)
        (items1 items2 : list (string * string * string)) (dtm1 dtm2 : string)
        (g : Refactor5.RecadvGenerator) :
  Refactor5.__init__ env c d b s r o = Return g ->
  items1 <> [] -> forallb (fun i => ean_ok (refactor5_ean i)) items1 = true ->
  items2 <> [] -> forallb (fun i => ean_ok (refactor5_ean i)) items2 = true ->
  Refactor5.message_ref g
  = Refactor5.strftime_ref env +:+ Py.slice_to 4 (Refactor5.uuid4_int env)
  /\ (forall items dtm g0 out g0',
        Refactor5.generate items dtm g0 = (out, g0') ->
        Refactor5.message_ref g0' = Refactor5.message_ref g0)
  /\ exists t1 g1 t2 g2,
       Refactor5.generate items1 dtm1 g = (Return t1, g1)
       /\ Refactor5.generate items2 dtm2 g1 = (Return t2, g2)
       /\ Refactor5.message g1 !! 1%nat
          = Some (Release1._segment "UNH" [Refactor5.message_ref g;
                                           "RECADV:D:96A:UN:EAN008"%string])
       /\ Refactor5.message g2 !! 1%nat
          = Some (Release1._segment "UNH" [Refactor5.message_ref g;
                                           "RECADV:D:96A:UN:EAN008"%string]).
Proof.
  intros Hinit Hne1 Hi1 Hne2 Hi2.
  split.
  { unfold Refactor5.__init__ in Hinit.
    destruct (_validate_ean b); [| discriminate].
    destruct (_validate_ean s); [| discriminate].
    injection Hinit as <-. reflexivity. }
  split; [intros items dtm; apply refactor5_generate_keeps_reference |].
  eexists _, _, _, _.
  split; [exact (refactor5_generate_ok items1 dtm1 g Hne1 Hi1) |].
  split; [exact (refactor5_generate_ok items2 dtm2 _ Hne2 Hi2) |].
  split; reflexivity.
Qed.

Lemma refactor5_one_reference_per_generator_witness :
  exists g t1 g1 t2 g2,
    refactor5_default {| Refactor5.strftime_ref := "202501011200";
                         Refactor5.uuid4_int := "250334169571669407163800140488498123456" |}
    = Return g
    /\ Refactor5.message_ref g = "2025010112002503"%string
    /\ Refactor5.generate [("1", "4000862141404", "12")]%string "20250101:1200" g
       = (Return t1, g1)
    /\ Refactor5.generate [("2", "4000862141405", "5")]%string "20250102:0930" g1
       = (Return t2, g2)
    /\ Refactor5.message g1 !! 1%nat
       = Some "UNH+2025010112002503+RECADV?:D?:96A?:UN?:EAN008'"%string
    /\ Refactor5.message g2 !! 1%nat
       = Some "UNH+2025010112002503+RECADV?:D?:96A?:UN?:EAN008'"%string.
Proof.
  eexists.
  destruct (refactor5_one_reference_per_generator
              {| Refactor5.strftime_ref := "202501011200";
                 Refactor5.uuid4_int := "250334169571669407163800140488498123456" |}
              "CarrierX" "DEHAM" "5412345000176" "4012345500004" "123456789" "output"
              [("1", "4000862141404", "12")]%string [("2", "4000862141405", "5")]%string
              "20250101:1200" "20250102:0930" _
              eq_refl ltac:(discriminate) eq_refl ltac:(discriminate) eq_refl)
    as (Href & _ & t1 & g1 & t2 & g2 & E1 & E2 & U1 & U2).
  exists t1, g1, t2, g2.
  exact (conj eq_refl (conj Href (conj E1 (conj E2 (conj U1 U2))))).
Defined.

(** On dicts that carry the three keys the loop of refactor5 is the loop
    over what the subscripts read. *)
Lemma refactor5_complete_subscripts (item : gmap string string) :
  Refactor5Dicts.complete item = true ->
  exists l e q,
    item !! "line_no"%string = Some l /\ item !! "ean"%string = Some e
    /\ item !! "qty"%string = Some q /\ Refactor5Dicts.arguments item = (l, e, q).
Proof.
  unfold Refactor5Dicts.complete, Refactor5Dicts.arguments.
  intros [[Hl He]%andb_true_iff Hq]%andb_true_iff.
  apply bool_decide_eq_true in Hl as [l Hl], He as [e He], Hq as [q Hq].
  exists l, e, q. now rewrite Hl, He, Hq.
Qed.

Lemma refactor5_dicts_loop (items : list (gmap string string))
      (g : Refactor5.RecadvGenerator) :
  forallb Refactor5Dicts.complete items = true ->
  Refactor5Dicts.add_line_items items g
  = Refactor5.add_line_items (map Refactor5Dicts.arguments items) g.
Proof.
  revert g. induction items as [|item items IH]; intros g H; [reflexivity |].
  cbn [forallb] in H. apply andb_true_iff in H as [Hi Hr].
  destruct (refactor5_complete_subscripts item Hi) as (l & e & q & Hl & He & Hq & Ha).
  cbn [map Refactor5Dicts.add_line_items]. rewrite Ha. cbn [Refactor5.add_line_items].
  unfold Refactor5Dicts.subscript. rewrite Hl, He, Hq.
  unfold bind at 1, lift at 1. unfold bind at 1, lift at 1. unfold bind at 1, lift at 1.
  apply bind_ext. intros _ g'. now apply IH.
Qed.

Lemma refactor5_dicts_loop_stop (good : list (gmap string string)) (bad : gmap string string)
      (rest : list (gmap string string)) (key : string) (g : Refactor5.RecadvGenerator) :
  forallb Refactor5Dicts.complete good = true ->
  forallb (fun i => ean_ok (refactor5_ean (Refactor5Dicts.arguments i))) good = true ->
  Refactor5Dicts.first_missing bad = Some key ->
  Refactor5Dicts.add_line_items (good ++ bad :: rest) g
  = (Raise (KeyError key),
     Refactor5.set_message
       (Refactor5.message g
        ++ flat_map refactor5_item_segments (map Refactor5Dicts.arguments good)) g).
Proof.
  revert g. induction good as [|item good IH]; intros g Hc Hg Hb.
  - cbn [map app Refactor5Dicts.add_line_items flat_map]. rewrite app_nil_r.
    unfold Refactor5Dicts.first_missing in Hb.
    unfold bind, lift, Refactor5Dicts.subscript.
    destruct (bad !! "line_no"%string), (bad !! "ean"%string), (bad !! "qty"%string);
      try discriminate; injection Hb as <-; now destruct g.
  - cbn [forallb] in Hc, Hg.
    apply andb_true_iff in Hc as [Hi Hc]. apply andb_true_iff in Hg as [Hok Hg].
    destruct (refactor5_complete_subscripts item Hi) as (l & e & q & Hl & He & Hq & Ha).
    rewrite Ha in Hok. cbn [refactor5_ean] in Hok.
    cbn [map app Refactor5Dicts.add_line_items]. rewrite Ha.
    unfold Refactor5Dicts.subscript at 1 2 3. rewrite Hl, He, Hq.
    unfold bind at 1, lift at 1. unfold bind at 1, lift at 1. unfold bind at 1, lift at 1.
    rewrite (bind_return _ _ _ _ _ (refactor5_add_line_item_ok l e q g Hok)).
    rewrite (IH _ Hc Hg Hb). cbn [flat_map Refactor5.message Refactor5.set_message].
    now rewrite <- app_assoc.
Qed.

Lemma refactor5_dicts_generate (items : list (gmap string string)) (strftime_dtm : string)
      (g : Refactor5.RecadvGenerator) :
  forallb Refactor5Dicts.complete items = true ->
  Refactor5Dicts.generate items strftime_dtm g
  = Refactor5.generate (map Refactor5Dicts.arguments items) strftime_dtm g.
Proof.
  intros Hc. destruct items as [|i items]; [reflexivity |].
  change (map Refactor5Dicts.arguments (i :: items))
    with (Refactor5Dicts.arguments i :: map Refactor5Dicts.arguments items).
  unfold Refactor5Dicts.generate, Refactor5.generate.
  change (Refactor5Dicts.arguments i :: map Refactor5Dicts.arguments items)
    with (map Refactor5Dicts.arguments (i :: items)).
  do 5 (apply bind_ext; intros _ ?).
  unfold bind at 1 3. now rewrite refactor5_dicts_loop.
Qed.

Lemma refactor5_dicts_generate_stop (good : list (gmap string string))
      (bad : gmap string string) (rest : list (gmap string string)) (key : string)
      (strftime_dtm : string) (g : Refactor5.RecadvGenerator) :
  forallb Refactor5Dicts.complete good = true ->
  forallb (fun i => ean_ok (refactor5_ean (Refactor5Dicts.arguments i))) good = true ->
  Refactor5Dicts.first_missing bad = Some key ->
  Refactor5Dicts.generate (good ++ bad :: rest) strftime_dtm g
  = (Raise (KeyError key),
     Refactor5.set_message
       (refactor5_leading_segments strftime_dtm g
        ++ flat_map refactor5_item_segments (map Refactor5Dicts.arguments good)) g).
Proof.
  intros Hc Hg Hb. unfold Refactor5Dicts.generate.
  destruct (good ++ bad :: rest) as [|i0 items'] eqn:Hitems; [now destruct good |].
  rewrite <- Hitems. clear Hitems i0 items'.
  unfold bind at 1. unfold bind at 1.
  unfold Refactor5.add_una_segment, Refactor5.append at 1.
  unfold bind at 1.
  replace (Refactor5.add_header strftime_dtm _)
    with (Return tt,
          Refactor5.set_message
            [ "UNA:+.? '"%string;
              Release1._segment "UNH" [Refactor5.message_ref g; "RECADV:D:96A:UN:EAN008"%string];
              Release1._segment "BGM" ["351"; "RECADV001"; "9"]%string;
              Release1._segment "DTM" ["137:" +:+ strftime_dtm +:+ ":203"];
              Release1._segment "RFF" ["DQ:" +:+ Refactor5.reference_number g] ] g)
    by reflexivity.
  unfold bind at 1.
  replace (Refactor5.add_parties _)
    with (Return tt,
          Refactor5.set_message
            [ "UNA:+.? '"%string;
              Release1._segment "UNH" [Refactor5.message_ref g; "RECADV:D:96A:UN:EAN008"%string];
              Release1._segment "BGM" ["351"; "RECADV001"; "9"]%string;
              Release1._segment "DTM" ["137:" +:+ strftime_dtm +:+ ":203"];
              Release1._segment "RFF" ["DQ:" +:+ Refactor5.reference_number g];
              Release1._segment "NAD" ["BY"%string; Refactor5.buyer_ean g +:+ "::9"];
              Release1._segment "NAD" ["SU"%string; Refactor5.supplier_ean g +:+ "::9"] ] g)
    by reflexivity.
  unfold bind at 1.
  replace (Refactor5.add_transport_details _)
    with (Return tt,
          Refactor5.set_message (refactor5_leading_segments strftime_dtm g) g)
    by reflexivity.
  unfold bind at 1.
  now rewrite (refactor5_dicts_loop_stop good bad rest key _ Hc Hg Hb).
Qed.

(** X14: for line items that carry the keys [line_no], [ean] and [qty],
    refactor5's [generate] raises [ValueError], and no other exception,
    exactly when the list is empty or the EAN of some item fails the test;
    the party identifiers are not tested again and the quantity is not
    tested at all. An item that lacks one of the three keys, after items
    that pass, makes [generate] raise [KeyError] with the first key that is
    missing. *)
Theorem refactor5_generate_raises_iff
        (items : list (gmap string string)) (strftime_dtm : string)
        (g : Refactor5.RecadvGenerator) :
  (forallb Refactor5Dicts.complete items = true ->
   (raises_ValueError (fst (Refactor5Dicts.generate items strftime_dtm g)) <->
      items = []
      \/ exists item e, In item items /\ item !! "ean"%string = Some e /\ ean_ok e = false)
   /\ (raised (fst (Refactor5Dicts.generate items strftime_dtm g)) ->
       raises_ValueError (fst (Refactor5Dicts.generate items strftime_dtm g))))
  /\ (forall good bad rest key,
        items = good ++ bad :: rest ->
        forallb Refactor5Dicts.complete good = true ->
        forallb (fun i => ean_ok (refactor5_ean (Refactor5Dicts.arguments i))) good = true ->
        Refactor5Dicts.first_missing bad = Some key ->
        fst (Refactor5Dicts.generate items strftime_dtm g) = Raise (KeyError key)).
Proof.
  split.
  2:{ intros good bad rest key -> Hc Hg Hb.
      now rewrite (refactor5_dicts_generate_stop good bad rest key strftime_dtm g Hc Hg Hb). }
  intros Hc. rewrite (refactor5_dicts_generate items strftime_dtm g Hc).
  assert (Hex : (exists item e, In item items /\ item !! "ean"%string = Some e
                                /\ ean_ok e = false)
                <-> exists t, In t (map Refactor5Dicts.arguments items)
                              /\ ean_ok (refactor5_ean t) = false).
  { split.
    - intros (item & e & Hin & He & Hbad).
      exists (Refactor5Dicts.arguments item). split; [now apply in_map |].
      unfold Refactor5Dicts.arguments. cbn [refactor5_ean]. now rewrite He.
    - intros (t & Hin & Hbad). apply in_map_iff in Hin as (item & <- & Hin).
      rewrite forallb_forall in Hc.
      destruct (refactor5_complete_subscripts item (Hc item Hin))
        as (l & e & q & _ & He & _ & Ha).
      rewrite Ha in Hbad. exists item, e. now repeat split. }
  rewrite Hex. clear Hex.
  set (triples := map Refactor5Dicts.arguments items).
  assert (Hnil : items = [] <-> triples = [])
    by (unfold triples; destruct items; split; intros; discriminate || reflexivity).
  rewrite Hnil. clear Hnil Hc. clearbody triples.
  destruct triples as [|i0 items'] eqn:E.
  { cbn [Refactor5.generate throw fst raised raises_ValueError].
    split; [split; [intros _; now left | trivial] | trivial]. }
  rewrite <- E. assert (Hne : triples <> []) by (rewrite E; discriminate). clear E.
  destruct (forallb (fun i => ean_ok (refactor5_ean i)) triples) eqn:Hall.
  - rewrite (refactor5_generate_ok triples strftime_dtm g Hne Hall).
    cbn [fst raised raises_ValueError]. split; [| tauto].
    split; [tauto |]. intros [-> | Hbad]; [congruence |].
    apply forallb_refactor5_ean_false in Hbad. congruence.
  - destruct (forallb_false_split _ _ Hall) as (good & bad & rest & -> & Hg & Hb).
    destruct (refactor5_generate_stop good bad rest strftime_dtm g Hg Hb) as [msg ->].
    cbn [fst raised raises_ValueError]. split; [| tauto].
    split; [| tauto]. intros _. right. exists bad. split; [apply in_elt | exact Hb].
Qed.

Lemma refactor5_generate_raises_iff_witness :
  (raises_ValueError
     (fst (Refactor5Dicts.generate
             [Refactor5Dicts.dict_of ("1", "400086214140", "12")%string]
             "20250101:1200" refactor5_example)) <->
     [Refactor5Dicts.dict_of ("1", "400086214140", "12")%string] = []
     \/ exists item e,
          In item [Refactor5Dicts.dict_of ("1", "400086214140", "12")%string]
          /\ item !! "ean"%string = Some e /\ ean_ok e = false)
  /\ fst (Refactor5Dicts.generate
            [Refactor5Dicts.dict_of ("1", "4000862141404", "12")%string;
             Refactor5Dicts.item_without_qty]
            "20250101:1200" refactor5_example)
     = Raise (KeyError "qty").
Proof.
  split.
  - destruct (refactor5_generate_raises_iff
                [Refactor5Dicts.dict_of ("1", "400086214140", "12")%string]
                "20250101:1200" refactor5_example) as [H _].
    exact (proj1 (H eq_refl)).
  - destruct (refactor5_generate_raises_iff
                [Refactor5Dicts.dict_of ("1", "4000862141404", "12")%string;
                 Refactor5Dicts.item_without_qty]
                "20250101:1200" refactor5_example) as [_ H].
    exact (H [Refactor5Dicts.dict_of ("1", "4000862141404", "12")%string]
             Refactor5Dicts.item_without_qty [] "qty"%string
             eq_refl eq_refl eq_refl eq_refl).
Defined.

(** X15: in refactor5 two successive calls of [generate_and_save] on one
    generator, with no file name given, go to the same path, named after
    the one reference of the generator: the second message replaces the
    first. *)
Theorem refactor5_saves_share_a_file
        (items1 items2 : list (string * string * string)) (dtm1 dtm2 : string)
        (g : Refactor5.RecadvGenerator) (fs : FS) :
  items1 <> [] -> forallb (fun i => ean_ok (refactor5_ean i)) items1 = true ->
  items2 <> [] -> forallb (fun i => ean_ok (refactor5_ean i)) items2 = true ->
  exists path t1 g1 fs1 t2 g2 fs2,
    path = Py.path_join (Refactor5.output_dir g)
                        ("RECADV_" +:+ Refactor5.message_ref g +:+ ".edi")
    /\ Refactor5.generate items1 dtm1 g = (Return t1, g1)
    /\ Refactor5.generate items2 dtm2 g1 = (Return t2, g2)
    /\ refactor5_generate_and_save items1 None dtm1 Release1Builder.NoRaise g fs
       = (Return path, g1, fs1)
    /\ fs1 !! path = Some t1
    /\ refactor5_generate_and_save items2 None dtm2 Release1Builder.NoRaise g1 fs1
       = (Return path, g2, fs2)
    /\ fs2 !! path = Some t2
    /\ (forall p, p <> path -> fs2 !! p = fs !! p).
Proof.
  intros Hne1 Hi1 Hne2 Hi2.
  eexists _, _, _, _, _, _, _.
  split; [reflexivity |].
  split; [exact (refactor5_generate_ok items1 dtm1 g Hne1 Hi1) |].
  split; [exact (refactor5_generate_ok items2 dtm2 _ Hne2 Hi2) |].
  split.
  { unfold refactor5_generate_and_save.
    rewrite (refactor5_generate_ok items1 dtm1 g Hne1 Hi1). reflexivity. }
  split; [apply lookup_insert_eq |].
  split.
  { unfold refactor5_generate_and_save.
    rewrite (refactor5_generate_ok items2 dtm2 _ Hne2 Hi2). reflexivity. }
  split; [apply lookup_insert_eq |].
  intros p Hp. rewrite !lookup_insert_ne by exact (fun E => Hp (eq_sym E)). reflexivity.
Qed.

Lemma refactor5_saves_share_a_file_witness :
  exists path t1 g1 fs1 t2 g2 fs2,
    path = "output/RECADV_2025010112002503.edi"%string
    /\ Refactor5.generate [("1", "4000862141404", "12")]%string "20250101:1200"
         refactor5_example = (Return t1, g1)
    /\ Refactor5.generate [("2", "4000862141405", "5")]%string "20250102:0930" g1
       = (Return t2, g2)
    /\ refactor5_generate_and_save [("1", "4000862141404", "12")]%string None "20250101:1200"
         Release1Builder.NoRaise refactor5_example ∅
       = (Return path, g1, fs1)
    /\ fs1 !! path = Some t1
    /\ refactor5_generate_and_save [("2", "4000862141405", "5")]%string None "20250102:0930"
         Release1Builder.NoRaise g1 fs1
       = (Return path, g2, fs2)
    /\ fs2 !! path = Some t2
    /\ (forall p, p <> path -> fs2 !! p = (∅ : FS) !! p).
Proof.
  apply (refactor5_saves_share_a_file
           [("1", "4000862141404", "12")]%string [("2", "4000862141405", "5")]%string
           "20250101:1200" "20250102:0930" refactor5_example ∅).
  - discriminate.
  - reflexivity.
  - discriminate.
  - reflexivity.
Defined.

(** * The terminal variant *)

Lemma termprint_escape_cons (c : ascii) (r : string) :
  TermPrint.edifact_escape (String c r)
  = String (TermPrint.escape_char c) (TermPrint.edifact_escape r).
Proof.
  unfold TermPrint.edifact_escape, TermPrint.escape_char. cbn [Py.replace].
  destruct (Ascii.eqb_spec c "'") as [->|Ha]; [reflexivity |].
  cbn [Py.replace]. destruct (Ascii.eqb_spec c "+") as [->|Hp]; [reflexivity |].
  cbn [Py.replace]. destruct (Ascii.eqb_spec c ":") as [->|Hc]; reflexivity.
Qed.

Lemma termprint_escape_char_idem (c : ascii) :
  TermPrint.escape_char (TermPrint.escape_char c) = TermPrint.escape_char c.
Proof.
  unfold TermPrint.escape_char.
  destruct (Ascii.eqb c "'" || Ascii.eqb c "+" || Ascii.eqb c ":")%bool eqn:E;
    [reflexivity | now rewrite E].
Qed.

Lemma termprint_escape_char_not (c d : ascii) :
  d = "'"%char \/ d = "+"%char \/ d = ":"%char ->
  Ascii.eqb (TermPrint.escape_char c) d = false.
Proof.
  intros Hd. unfold TermPrint.escape_char.
  destruct (Ascii.eqb_spec c "'") as [->|Ha];
    [destruct Hd as [-> | [-> | ->]]; reflexivity |].
  destruct (Ascii.eqb_spec c "+") as [->|Hp];
    [destruct Hd as [-> | [-> | ->]]; reflexivity |].
  destruct (Ascii.eqb_spec c ":") as [->|Hc];
    [destruct Hd as [-> | [-> | ->]]; reflexivity |].
  cbn [orb]. apply Ascii.eqb_neq. destruct Hd as [-> | [-> | ->]]; assumption.
Qed.

Lemma termprint_escape_count (d : ascii) (s : string) :
  d = "'"%char \/ d = "+"%char \/ d = ":"%char ->
  count_char d (TermPrint.edifact_escape s) = 0%nat.
Proof.
  intros Hd. induction s as [|c s IH]; [reflexivity |].
  rewrite termprint_escape_cons, count_char_cons.
  now rewrite (termprint_escape_char_not c d Hd), IH.
Qed.

Lemma termprint_escape_length (s : string) :
  String.length (TermPrint.edifact_escape s) = String.length s.
Proof.
  induction s as [|c s IH]; [reflexivity |].
  rewrite termprint_escape_cons. cbn [String.length]. now rewrite IH.
Qed.

Lemma termprint_escape_idem (s : string) :
  TermPrint.edifact_escape (TermPrint.edifact_escape s) = TermPrint.edifact_escape s.
Proof.
  induction s as [|c s IH]; [reflexivity |].
  rewrite !termprint_escape_cons, termprint_escape_char_idem. now rewrite IH.
Qed.

(** X16: [edifact_escape] puts a release character in the place of every
    terminator, element separator and component separator: its result has
    none of the three and the length of its argument, escaping a second
    time changes nothing, and the three delimiters can no longer be told
    apart. *)
Theorem termprint_escape_erases_delimiters (s : string) :
  count_char "'" (TermPrint.edifact_escape s) = 0%nat
  /\ count_char "+" (TermPrint.edifact_escape s) = 0%nat
  /\ count_char ":" (TermPrint.edifact_escape s) = 0%nat
  /\ String.length (TermPrint.edifact_escape s) = String.length s
  /\ TermPrint.edifact_escape (TermPrint.edifact_escape s) = TermPrint.edifact_escape s
  /\ (forall a b : string,
        TermPrint.edifact_escape (a +:+ "+" +:+ b)
        = TermPrint.edifact_escape (a +:+ ":" +:+ b)
        /\ TermPrint.edifact_escape (a +:+ "+" +:+ b)
           = TermPrint.edifact_escape (a +:+ "'" +:+ b)).
Proof.
  split; [apply termprint_escape_count; auto |].
  split; [apply termprint_escape_count; auto |].
  split; [apply termprint_escape_count; auto |].
  split; [apply termprint_escape_length |].
  split; [apply termprint_escape_idem |].
  intros a b. induction a as [|c a [IH1 IH2]].
  - split; reflexivity.
  - change (String c a +:+ "+" +:+ b) with (String c (a +:+ "+" +:+ b)).
    change (String c a +:+ ":" +:+ b) with (String c (a +:+ ":" +:+ b)).
    change (String c a +:+ "'" +:+ b) with (String c (a +:+ "'" +:+ b)).
    rewrite !termprint_escape_cons. split; f_equal; assumption.
Qed.

Lemma termprint_digits_escape (s : string) :
  Py.all_chars Py.is_ascii_digit s = true -> TermPrint.edifact_escape s = s.
Proof.
  induction s as [|c s IH]; [reflexivity |].
  cbn [Py.all_chars]. intros [Hc Hs]%andb_true_iff.
  rewrite termprint_escape_cons, IH by exact Hs. f_equal.
  unfold TermPrint.escape_char.
  destruct (Ascii.eqb_spec c "'") as [->|_]; [discriminate |].
  destruct (Ascii.eqb_spec c "+") as [->|_]; [discriminate |].
  destruct (Ascii.eqb_spec c ":") as [->|_]; [discriminate | reflexivity].
Qed.

Lemma termprint_trailer_count_segment (n : Z) (r : string) :
  0 <= n ->
  trailer_count (TermPrint._segment "UNT" [Some (Py.str_int n); Some r]) = Some n.
Proof.
  intros Hn. destruct (str_int_digits n Hn) as [Hdig _].
  unfold TermPrint._segment. cbn [map]. unfold Py.join. cbn [String.concat].
  rewrite (termprint_digits_escape _ Hdig), !append_assoc.
  now apply trailer_count_read.
Qed.

Lemma termprint_add_line_items_app (message : list string)
      (items : list (gmap string string)) :
  TermPrint.add_line_items message items
  = message ++ flat_map termprint_item_segments items.
Proof.
  revert message. induction items as [|i items IH]; intros message.
  - cbn. now rewrite app_nil_r.
  - cbn [TermPrint.add_line_items flat_map]. rewrite IH.
    unfold termprint_item_segments. now rewrite <- !app_assoc.
Qed.

Lemma termprint_length_item_segments (items : list (gmap string string)) :
  length (flat_map termprint_item_segments items) = (4 * length items)%nat.
Proof.
  induction items as [|i items IH]; [reflexivity |].
  cbn [flat_map]. rewrite length_app, IH. cbn [length termprint_item_segments]. lia.
Qed.

(** X17: the terminal variant has no test on its input: for every list of
    line items, the empty one and items that lack keys included,
    [generate] returns [10 + 4 * n] segments joined by newlines. The count
    in its trailer is [9 + 4 * n], the number of segments ahead of the
    trailer: it counts the service advice and does not count the trailer
    itself. *)
Theorem termprint_trailer_count
        (self : TermPrint.RecadvGenerator) (items : list (gmap string string))
        (env : TermPrint.Env) :
  exists m t,
    TermPrint.generate self items env = Py.join Py.LF m
    /\ length m = (10 + 4 * length items)%nat
    /\ m !! 0%nat = Some "UNA:+.? '"%string
    /\ last m = Some t
    /\ tag_of t = "UNT"%string
    /\ trailer_count t = Some (Z.of_nat (length m) - 1)
    /\ trailer_count t = Some (9 + 4 * Z.of_nat (length items)).
Proof.
  eexists (TermPrint.generate_segments self items env), _.
  split; [reflexivity |].
  unfold TermPrint.generate_segments, TermPrint.add_trailer.
  rewrite termprint_add_line_items_app.
  set (lead := TermPrint.add_transport_details self
                 (TermPrint.add_parties self
                    (TermPrint.add_header self env (TermPrint.add_una_segment [])
                       (TermPrint._generate_message_reference env)))).
  assert (Hlead : length lead = 9%nat) by reflexivity.
  assert (Hbody : length (lead ++ flat_map termprint_item_segments items)
                  = (9 + 4 * length items)%nat)
    by (rewrite length_app, termprint_length_item_segments, Hlead; reflexivity).
  split; [rewrite length_app, Hbody; cbn [length]; lia |].
  split; [reflexivity |].
  split; [apply last_snoc |].
  split; [reflexivity |].
  rewrite termprint_trailer_count_segment by lia.
  rewrite !length_app, termprint_length_item_segments, Hlead. cbn [length].
  fold lead. rewrite Hlead. split; f_equal; lia.
Qed.

(** * The projection to XML *)

Example strip_values :
  PyText.strip "  BGM+351' " = "BGM+351'"%string
  /\ PyText.strip (String "009" (String "010" " ")) = ""%string
  /\ PyText.strip "a b" = "a b"%string.
Proof. repeat split. Qed.

Example split_values :
  PyText.split "+" "BGM+351+RECADV001+9'" = ["BGM"; "351"; "RECADV001"; "9'"]%string
  /\ PyText.split "+" "" = [""%string]
  /\ PyText.split "+" "+a++" = [""; "a"; ""; ""]%string.
Proof. repeat split. Qed.

Lemma split_nonempty (sep : ascii) (s : string) : PyText.split sep s <> [].
Proof.
  destruct s as [|c r]; cbn [PyText.split]; [discriminate |].
  destruct (Ascii.eqb c sep); [discriminate |].
  destruct (PyText.split sep r); discriminate.
Qed.

Lemma split_plain (sep : ascii) (s : string) :
  count_char sep s = 0%nat -> PyText.split sep s = [s].
Proof.
  induction s as [|c r IH]; [reflexivity |].
  rewrite count_char_cons. cbn [PyText.split].
  destruct (Ascii.eqb c sep); [discriminate |].
  intros H. now rewrite IH.
Qed.

Lemma split_append (sep : ascii) (a b : string) :
  count_char sep a = 0%nat ->
  PyText.split sep (a +:+ String sep b) = a :: PyText.split sep b.
Proof.
  induction a as [|c a IH].
  - intros _. cbn [String.append PyText.split]. now rewrite Ascii.eqb_refl.
  - rewrite count_char_cons.
    change (String c a +:+ String sep b) with (String c (a +:+ String sep b)).
    cbn [PyText.split]. destruct (Ascii.eqb c sep); [discriminate |].
    intros H. now rewrite IH.
Qed.

Lemma count_char_append_eq (c : ascii) (a b : string) :
  count_char c (a +:+ b) = (count_char c a + count_char c b)%nat.
Proof.
  induction a as [|x a IH]; [reflexivity |].
  change (String x a +:+ b) with (String x (a +:+ b)).
  rewrite !count_char_cons, IH. lia.
Qed.

(** Splitting what was joined gives the list back, when no element holds
    the separator. *)
Lemma split_join (l : list string) :
  l <> [] -> (forall e, In e l -> count_char "+" e = 0%nat) ->
  PyText.split "+" (Py.join "+" l) = l.
Proof.
  unfold Py.join. induction l as [|x l IH]; [congruence |].
  intros _ Hl. destruct l as [|y l].
  - cbn [String.concat]. apply split_plain, Hl. now left.
  - change (String.concat "+" (x :: y :: l))
      with (x +:+ String "+" (String.concat "+" (y :: l))).
    rewrite split_append by (apply Hl; now left).
    f_equal. apply IH; [discriminate | intros e He; apply Hl; now right].
Qed.

Lemma count_split (sep : ascii) (s : string) :
  length (PyText.split sep s) = S (count_char sep s).
Proof.
  induction s as [|c r IH]; [reflexivity |].
  rewrite count_char_cons. cbn [PyText.split].
  destruct (Ascii.eqb c sep).
  - cbn [length]. now rewrite IH.
  - destruct (PyText.split sep r) eqn:E; [now destruct (split_nonempty sep r) |].
    cbn [length] in *. exact IH.
Qed.

Lemma rstrip_terminated (s : string) :
  PyText.rstrip (s +:+ "'") = s +:+ "'".
Proof.
  induction s as [|c s IH]; [reflexivity |].
  change (String c s +:+ "'") with (String c (s +:+ "'")).
  cbn [PyText.rstrip]. rewrite IH.
  destruct (s +:+ "'") eqn:E; [destruct s; discriminate | reflexivity].
Qed.

Lemma length_sub_elements (i : Z) (parts : list string) :
  length (Export3.sub_elements i parts) = length parts.
Proof.
  revert i. induction parts as [|p parts IH]; intros i; [reflexivity |].
  cbn [Export3.sub_elements length]. now rewrite IH.
Qed.

Lemma map_snd_sub_elements (i : Z) (parts : list string) :
  map snd (Export3.sub_elements i parts) = parts.
Proof.
  revert i. induction parts as [|p parts IH]; intros i; [reflexivity |].
  cbn [Export3.sub_elements map snd]. now rewrite IH.
Qed.

Lemma export_to_xml_one (seg tag : string) (parts : list string) :
  PyText.strip seg <> ""%string ->
  PyText.split "+" (PyText.strip seg) = tag :: parts ->
  Export3.export_to_xml [seg] = [(tag, Export3.sub_elements 0 parts)].
Proof.
  intros Hne Hsplit. cbn [Export3.export_to_xml].
  destruct (PyText.strip seg) eqn:E; [congruence |]. now rewrite Hsplit.
Qed.

(** X18: the XML projection of a segment that [segment] renders from a tag
    and elements without [+], the tag starting with a character that is not
    white space: one element named by the tag, with one child per element of
    the segment, [Element1], [Element2], ... in order; the text of each
    child is the element, but the text of the last child also holds the
    segment terminator. A segment without elements gives one child whose
    text is the terminator alone. *)
Theorem xml_of_segment (c : ascii) (tag' : string) (init : list string) (last_element : string) :
  PyText.isspace_char c = false ->
  count_char "+" (String c tag') = 0%nat ->
  (forall e, In e (init ++ [last_element]) -> count_char "+" e = 0%nat) ->
  Export3.export_to_xml [Export3.segment (String c tag') (init ++ [last_element])]
  = [(String c tag', Export3.sub_elements 0 (init ++ [last_element +:+ "'"]))]
  /\ map snd (Export3.sub_elements 0 (init ++ [last_element +:+ "'"]))
     = init ++ [last_element +:+ "'"]
  /\ Export3.export_to_xml [Export3.segment (String c tag') []]
     = [(String c tag', [("Element1", "'")]%string)].
Proof.
  intros Hc Htag Hel.
  assert (Hstrip : forall body,
            PyText.strip (Export3.segment (String c tag') body)
            = String c tag' +:+ String "+" (Py.join "+" body +:+ "'")).
  { intros body. unfold PyText.strip, Export3.segment.
    change (String c tag' +:+ "+" +:+ Py.join "+" body +:+ "'")
      with (String c (tag' +:+ "+" +:+ Py.join "+" body +:+ "'")).
    cbn [PyText.lstrip]. rewrite Hc.
    change (String c (tag' +:+ "+" +:+ Py.join "+" body +:+ "'"))
      with (String c tag' +:+ "+" +:+ Py.join "+" body +:+ "'").
    rewrite <- (append_assoc "+"), <- append_assoc.
    etransitivity; [apply rstrip_terminated | now rewrite !append_assoc]. }
  assert (Hjoin : forall l x, Py.join "+" (l ++ [x]) +:+ "'" = Py.join "+" (l ++ [x +:+ "'"])).
  { unfold Py.join. induction l as [|y l IH]; intros x; [reflexivity |].
    destruct l as [|z l]; [cbn; now rewrite !append_assoc |].
    change (String.concat "+" ((y :: z :: l) ++ [x]))
      with (y +:+ "+" +:+ String.concat "+" ((z :: l) ++ [x])).
    change (String.concat "+" ((y :: z :: l) ++ [x +:+ "'"]))
      with (y +:+ "+" +:+ String.concat "+" ((z :: l) ++ [x +:+ "'"])).
    rewrite !append_assoc. now rewrite <- IH. }
  split; [| split].
  - apply export_to_xml_one.
    + rewrite Hstrip. discriminate.
    + rewrite Hstrip, split_append by exact Htag. f_equal.
      rewrite Hjoin. apply split_join; [now destruct init |].
      intros e [He | He]%in_app_iff; [apply Hel, in_app_iff; now left |].
      destruct He as [<- | []]. rewrite count_char_append_eq.
      rewrite (Hel last_element) by (apply in_app_iff; right; now left). reflexivity.
  - apply map_snd_sub_elements.
  - apply (export_to_xml_one _ _ ["'"%string]).
    + rewrite Hstrip. discriminate.
    + rewrite Hstrip, split_append by exact Htag. reflexivity.
Qed.

Lemma xml_of_segment_witness :
  Export3.export_to_xml [Export3.segment "BGM" ["351"; "RECADV001"; "9"]%string]
  = [("BGM", [("Element1", "351"); ("Element2", "RECADV001"); ("Element3", "9'")])]%string.
Proof.
  assert (H : forall e, In e (["351"; "RECADV001"]%string ++ ["9"%string]) ->
                        count_char "+" e = 0%nat)
    by (intros e [<- | [<- | [<- | []]]]; reflexivity).
  exact (proj1 (xml_of_segment "B" "GM" ["351"; "RECADV001"]%string "9" eq_refl eq_refl H)).
Defined.

Lemma export_to_xml_app (a b : list string) :
  Export3.export_to_xml (a ++ b) = Export3.export_to_xml a ++ Export3.export_to_xml b.
Proof.
  induction a as [|seg a IH]; [reflexivity |].
  cbn [app Export3.export_to_xml].
  destruct (PyText.strip seg); [exact IH |].
  destruct (PyText.split "+" _); [exact IH |].
  cbn [app]. now rewrite IH.
Qed.

(** X19: [export_to_xml] keeps the order of the segments, skips the
    segments that are blank, and turns every other segment into one element
    that has as many children as the segment, stripped of white space at both
    ends, has [+] characters, whether a release character stands before them
    or not. *)
Theorem xml_children_count (segments : list string) :
  (forall a b, Export3.export_to_xml (a ++ b)
               = Export3.export_to_xml a ++ Export3.export_to_xml b)
  /\ Export3.export_to_xml segments
     = flat_map (fun seg => Export3.export_to_xml [seg]) segments
  /\ (forall seg, In seg segments ->
        (PyText.strip seg = ""%string /\ Export3.export_to_xml [seg] = [])
        \/ (PyText.strip seg <> ""%string
            /\ exists tag children,
                 Export3.export_to_xml [seg] = [(tag, children)]
                 /\ length children = count_char "+" (PyText.strip seg)
                 /\ tag :: map snd children = PyText.split "+" (PyText.strip seg))).
Proof.
  split; [exact export_to_xml_app |]. split.
  - induction segments as [|seg segments IH]; [reflexivity |].
    change (seg :: segments) with ([seg] ++ segments).
    rewrite export_to_xml_app, IH. reflexivity.
  - intros seg _. destruct (PyText.strip seg) eqn:E.
    + left. split; [reflexivity |]. cbn [Export3.export_to_xml]. now rewrite E.
    + right. split; [discriminate |].
      destruct (PyText.split "+" (String a s)) as [|tag parts] eqn:Hs;
        [now destruct (split_nonempty "+" (String a s)) |].
      exists tag, (Export3.sub_elements 0 parts).
      split; [apply export_to_xml_one; [rewrite E; discriminate | now rewrite E] |].
      split.
      * rewrite length_sub_elements.
        pose proof (count_split "+" (String a s)) as Hc. rewrite Hs in Hc.
        cbn [length] in Hc. lia.
      * now rewrite map_snd_sub_elements.
Qed.

(** * The variant without a reset *)

Lemma rf4_complete_missing (item : gmap string string) :
  Rf4.complete item = true <-> Rf4.first_missing item = None.
Proof.
  unfold Rf4.complete, Rf4.first_missing.
  destruct (item !! "line_no"%string), (item !! "ean"%string), (item !! "qty"%string);
    cbn; split; intros H; try reflexivity; try discriminate.
Qed.

Lemma rf4_length_item_segments (items : list (gmap string string)) :
  forallb Rf4.complete items = true ->
  length (flat_map Rf4.item_segments items) = (4 * length items)%nat.
Proof.
  induction items as [|i items IH]; [reflexivity |].
  cbn [forallb flat_map]. intros [Hi Hr]%andb_true_iff.
  rewrite length_app, IH by exact Hr.
  apply rf4_complete_missing in Hi. unfold Rf4.first_missing, Rf4.item_segments in *.
  destruct (i !! "line_no"%string), (i !! "ean"%string), (i !! "qty"%string);
    try discriminate. cbn [length]. lia.
Qed.

Lemma rf4_add_line_items_complete (item : gmap string string)
      (rest : list (gmap string string)) (g : Rf4.RecadvGenerator) :
  Rf4.complete item = true ->
  Rf4.add_line_items (item :: rest) g
  = Rf4.add_line_items rest
      {| Rf4.message := Rf4.message g ++ Rf4.item_segments item;
         Rf4.message_ref := Rf4.message_ref g |}.
Proof.
  intros Hi. apply rf4_complete_missing in Hi.
  cbn [Rf4.add_line_items].
  unfold Rf4.first_missing, Rf4.item_segments, Rf4.subscript in *.
  destruct (item !! "line_no"%string), (item !! "ean"%string), (item !! "qty"%string);
    try discriminate.
  unfold Rf4.append. cbn [Rf4.message Rf4.message_ref]. now rewrite <- !app_assoc.
Qed.

Lemma rf4_add_line_items_missing (item : gmap string string)
      (rest : list (gmap string string)) (key : string) (g : Rf4.RecadvGenerator) :
  Rf4.first_missing item = Some key ->
  Rf4.add_line_items (item :: rest) g
  = (Rf4.KeyError key,
     {| Rf4.message := Rf4.message g ++ Rf4.item_segments item;
        Rf4.message_ref := Rf4.message_ref g |}).
Proof.
  intros Hb. cbn [Rf4.add_line_items].
  unfold Rf4.first_missing, Rf4.item_segments, Rf4.subscript in *.
  destruct (item !! "line_no"%string), (item !! "ean"%string), (item !! "qty"%string);
    try discriminate; injection Hb as <-;
    unfold Rf4.append; cbn [Rf4.message Rf4.message_ref];
    rewrite ?app_nil_r; now destruct g.
Qed.

Lemma rf4_add_line_items_ok (items : list (gmap string string)) (g : Rf4.RecadvGenerator) :
  forallb Rf4.complete items = true ->
  Rf4.add_line_items items g
  = (Rf4.Returned tt,
     {| Rf4.message := Rf4.message g ++ flat_map Rf4.item_segments items;
        Rf4.message_ref := Rf4.message_ref g |}).
Proof.
  revert g. induction items as [|i items IH]; intros g.
  - intros _. cbn. rewrite app_nil_r. now destruct g.
  - cbn [forallb]. intros [Hi Hr]%andb_true_iff.
    rewrite (rf4_add_line_items_complete _ _ _ Hi), IH by exact Hr.
    cbn [Rf4.message Rf4.message_ref flat_map]. now rewrite <- app_assoc.
Qed.

Lemma rf4_add_line_items_stop (good : list (gmap string string)) (bad : gmap string string)
      (rest : list (gmap string string)) (key : string) (g : Rf4.RecadvGenerator) :
  forallb Rf4.complete good = true -> Rf4.first_missing bad = Some key ->
  Rf4.add_line_items (good ++ bad :: rest) g
  = (Rf4.KeyError key,
     {| Rf4.message := Rf4.message g ++ flat_map Rf4.item_segments good
                       ++ Rf4.item_segments bad;
        Rf4.message_ref := Rf4.message_ref g |}).
Proof.
  revert g. induction good as [|i good IH]; intros g.
  - intros _ Hb. cbn [app flat_map]. now apply rf4_add_line_items_missing.
  - cbn [forallb]. intros [Hi Hr]%andb_true_iff Hb.
    cbn [app]. rewrite (rf4_add_line_items_complete _ _ _ Hi), (IH _ Hr Hb).
    cbn [Rf4.message Rf4.message_ref flat_map]. now rewrite <- !app_assoc.
Qed.

Lemma rf4_leading (strftime_dtm : string) (g : Rf4.RecadvGenerator) :
  Rf4.add_transport_details
    (Rf4.add_parties (Rf4.add_header strftime_dtm (Rf4.add_una_segment g)))
  = {| Rf4.message := Rf4.message g ++ Rf4.leading_segments strftime_dtm g;
       Rf4.message_ref := Rf4.message_ref g |}.
Proof.
  unfold Rf4.add_transport_details, Rf4.add_parties, Rf4.add_header, Rf4.add_una_segment,
    Rf4.append.
  cbn [Rf4.message Rf4.message_ref]. now rewrite <- !app_assoc.
Qed.

Lemma rf4_generate_ok (items : list (gmap string string)) (strftime_dtm : string)
      (g : Rf4.RecadvGenerator) :
  forallb Rf4.complete items = true ->
  let body := Rf4.message g ++ Rf4.leading_segments strftime_dtm g
              ++ flat_map Rf4.item_segments items in
  let m := body ++ [Rf4._segment "UNT" [Py.str_int (Z.of_nat (length body) + 1);
                                        Rf4.message_ref g]] in
  Rf4.generate items strftime_dtm g
  = (Rf4.Returned (Py.join Py.LF m),
     {| Rf4.message := m; Rf4.message_ref := Rf4.message_ref g |}).
Proof.
  intros Hi. unfold Rf4.generate.
  rewrite (rf4_leading strftime_dtm g), rf4_add_line_items_ok by exact Hi.
  unfold Rf4.add_trailer, Rf4.append. cbn [Rf4.message Rf4.message_ref].
  rewrite <- !app_assoc. reflexivity.
Qed.

Lemma rf4_trailer_count_segment (n : Z) (r : string) :
  0 <= n -> trailer_count (Rf4._segment "UNT" [Py.str_int n; r]) = Some n.
Proof.
  intros Hn. unfold Rf4._segment, Py.join. cbn [String.concat].
  rewrite !append_assoc. now apply trailer_count_read.
Qed.

(** X20: [generate] of rf4 does not empty [self.message]: a second call on
    the same generator appends its segments after those of the first. The
    message of the second call begins with the whole message of the first,
    has as many segments as both together, carries the same reference, and
    its trailer counts the segments of both calls. The line items hold the
    keys [line_no], [ean] and [qty]. *)
Theorem rf4_generate_accumulates
        (items1 items2 : list (gmap string string)) (dtm1 dtm2 : string)
        (env : Rf4.InitEnv) :
  forallb Rf4.complete items1 = true -> forallb Rf4.complete items2 = true ->
  exists t1 g1 t2 g2 second last2,
    Rf4.generate items1 dtm1 (Rf4.__init__ env) = (Rf4.Returned t1, g1)
    /\ Rf4.generate items2 dtm2 g1 = (Rf4.Returned t2, g2)
    /\ t1 = Py.join Py.LF (Rf4.message g1) /\ t2 = Py.join Py.LF (Rf4.message g2)
    /\ length (Rf4.message g1) = (10 + 4 * length items1)%nat
    /\ Rf4.message g2 = Rf4.message g1 ++ second
    /\ length second = (10 + 4 * length items2)%nat
    /\ second !! 0%nat = Some "UNA:+.? '"%string
    /\ second !! 1%nat = Rf4.message g1 !! 1%nat
    /\ last (Rf4.message g2) = Some last2
    /\ trailer_count last2
       = Some (Z.of_nat (length (Rf4.message g1)) + 10 + 4 * Z.of_nat (length items2)).
Proof.
  intros H1 H2.
  pose proof (rf4_generate_ok items1 dtm1 (Rf4.__init__ env) H1) as E1. cbn zeta in E1.
  match type of E1 with
  | _ = (_, ?g) => set (g1 := g) in *;
      pose proof (rf4_generate_ok items2 dtm2 g1 H2) as E2; cbn zeta in E2
  end.
  match type of E2 with
  | _ = (_, ?g) => set (g2 := g) in *
  end.
  exists (Py.join Py.LF (Rf4.message g1)), g1, (Py.join Py.LF (Rf4.message g2)), g2.
  eexists (Rf4.leading_segments dtm2 g1 ++ flat_map Rf4.item_segments items2 ++ [_]), _.
  split; [exact E1 |]. split; [exact E2 |].
  split; [reflexivity |]. split; [reflexivity |].
  split.
  { subst g1. cbn [Rf4.message Rf4.__init__ app].
    rewrite !length_app, rf4_length_item_segments by exact H1.
    cbn [length Rf4.leading_segments]. lia. }
  split; [subst g2; cbn [Rf4.message]; rewrite <- !app_assoc; reflexivity |].
  split.
  { rewrite !length_app, rf4_length_item_segments by exact H2.
    cbn [length Rf4.leading_segments]. lia. }
  split; [reflexivity |]. split; [reflexivity |].
  split; [subst g2; cbn [Rf4.message]; apply last_snoc |].
  rewrite rf4_trailer_count_segment by lia. f_equal.
  rewrite !length_app, rf4_length_item_segments by exact H2.
  cbn [length Rf4.leading_segments]. lia.
Qed.

Lemma rf4_generate_accumulates_witness :
  exists t1 g1 t2 g2 second last2,
    Rf4.generate [Rf4.example_item] "20250101:1200"
      (Rf4.__init__ {| Rf4.strftime_ref := "202501011200";
                       Rf4.uuid4_int := "250334169571669407163800140488498123456" |})
    = (Rf4.Returned t1, g1)
    /\ Rf4.generate [Rf4.example_item; Rf4.example_item] "20250101:1201" g1
       = (Rf4.Returned t2, g2)
    /\ t1 = Py.join Py.LF (Rf4.message g1) /\ t2 = Py.join Py.LF (Rf4.message g2)
    /\ length (Rf4.message g1) = 14%nat
    /\ Rf4.message g2 = Rf4.message g1 ++ second
    /\ length second = 18%nat
    /\ second !! 0%nat = Some "UNA:+.? '"%string
    /\ second !! 1%nat = Rf4.message g1 !! 1%nat
    /\ last (Rf4.message g2) = Some last2
    /\ trailer_count last2 = Some (Z.of_nat (length (Rf4.message g1)) + 10 + 4 * 2).
Proof.
  apply (rf4_generate_accumulates [Rf4.example_item] [Rf4.example_item; Rf4.example_item]
           "20250101:1200" "20250101:1201"
           {| Rf4.strftime_ref := "202501011200";
              Rf4.uuid4_int := "250334169571669407163800140488498123456" |}).
  - reflexivity.
  - reflexivity.
Defined.

(** X21: [add_line_items] of rf4 reads the keys of a line item by
    subscript, in the order [line_no], [ean], [qty]. When an item lacks one,
    [generate] raises [KeyError] with the first key that is lacking, and
    [self.message] keeps what was appended: the nine leading segments, the
    segments of the items before, and, when only [qty] is lacking, the [LIN]
    segment of the item itself. *)
Theorem rf4_missing_key
        (good : list (gmap string string)) (bad : gmap string string)
        (rest : list (gmap string string)) (key : string) (strftime_dtm : string)
        (g : Rf4.RecadvGenerator) :
  forallb Rf4.complete good = true -> Rf4.first_missing bad = Some key ->
  exists g' partial,
    Rf4.generate (good ++ bad :: rest) strftime_dtm g = (Rf4.KeyError key, g')
    /\ Rf4.message g'
       = Rf4.message g ++ Rf4.leading_segments strftime_dtm g
         ++ flat_map Rf4.item_segments good ++ partial
    /\ Rf4.message_ref g' = Rf4.message_ref g
    /\ ((key = "qty"%string
         /\ exists l e, bad !! "line_no"%string = Some l /\ bad !! "ean"%string = Some e
                        /\ partial = [Rf4._segment "LIN" [l; ""%string; "EN:" +:+ e]])
        \/ ((key = "line_no"%string \/ key = "ean"%string) /\ partial = [])).
Proof.
  intros Hg Hb. exists
    {| Rf4.message := (Rf4.message g ++ Rf4.leading_segments strftime_dtm g)
                      ++ flat_map Rf4.item_segments good ++ Rf4.item_segments bad;
       Rf4.message_ref := Rf4.message_ref g |}, (Rf4.item_segments bad).
  split.
  { unfold Rf4.generate. rewrite (rf4_leading strftime_dtm g).
    now rewrite (rf4_add_line_items_stop good bad rest key _ Hg Hb). }
  split; [cbn [Rf4.message]; now rewrite <- !app_assoc |].
  split; [reflexivity |].
  unfold Rf4.first_missing, Rf4.item_segments in *.
  destruct (bad !! "line_no"%string) as [l|], (bad !! "ean"%string) as [e|],
    (bad !! "qty"%string); try discriminate; injection Hb as <-.
  all: first [ left; split; [reflexivity |]; now exists l, e
             | right; split; [tauto | reflexivity] ].
Qed.

Lemma rf4_missing_key_witness :
  exists g' partial,
    Rf4.generate ([Rf4.example_item] ++ Rf4.item_without_qty :: []) "20250101:1200"
      {| Rf4.message := []; Rf4.message_ref := "2025010112002503" |}
    = (Rf4.KeyError "qty", g')
    /\ Rf4.message g'
       = [] ++ Rf4.leading_segments "20250101:1200"
                 {| Rf4.message := []; Rf4.message_ref := "2025010112002503" |}
         ++ flat_map Rf4.item_segments [Rf4.example_item] ++ partial
    /\ Rf4.message_ref g' = "2025010112002503"%string
    /\ (("qty"%string = "qty"%string
         /\ exists l e, Rf4.item_without_qty !! "line_no"%string = Some l
                        /\ Rf4.item_without_qty !! "ean"%string = Some e
                        /\ partial = [Rf4._segment "LIN" [l; ""%string; "EN:" +:+ e]])
        \/ (("qty"%string = "line_no"%string \/ "qty"%string = "ean"%string) /\ partial = [])).
Proof.
  apply (rf4_missing_key [Rf4.example_item] Rf4.item_without_qty [] "qty" "20250101:1200"
           {| Rf4.message := []; Rf4.message_ref := "2025010112002503" |}).
  - reflexivity.
  - reflexivity.
Defined.
